(** * LaughAtlas: the real-time detection pipeline and the audio framing helpers

    A shallow embedding of [src/realtime/listen_and_detect.py] and
    [src/utils/audio_features.py].

    - Python floats and NumPy float samples are IEEE-754 values, modelled by
      [spec_float] (sign, mantissa, exponent, plus zeros, infinities and NaN);
      arithmetic and comparisons are the binary64 ones of [SpecFloat].
    - A one-dimensional [ndarray] is a [list] of samples.
    - A Python exception is the [Raise] branch of [result]; statements are
      sequenced with a small error monad.
    - librosa, the persisted classifier, the audio device and the clock are
      not part of the repository: they are parameters of the model. *)

From Stdlib Require Import ZArith List Bool Lia String.
From Stdlib Require Import Floats.SpecFloat.
Import ListNotations.

Local Open Scope Z_scope.

(** ** Exceptions and the error monad *)

Inductive exn : Type :=
| ValueError
| OverflowError
| FileNotFoundError
| PortAudioError
| OtherError (tag : nat).

Inductive result (A : Type) : Type :=
| Ok (a : A)
| Raise (e : exn).

Arguments Ok {A} a.
Arguments Raise {A} e.

Definition bind {A B : Type} (r : result A) (k : A -> result B) : result B :=
  match r with
  | Ok a => k a
  | Raise e => Raise e
  end.

Notation "x <- c1 ;; c2" := (bind c1 (fun x => c2))
  (at level 61, c1 at next level, right associativity).

Definition is_ok {A : Type} (r : result A) : bool :=
  match r with Ok _ => true | Raise _ => false end.

(** ** Python floats *)

Definition float : Type := spec_float.

Module PyFloat.

Definition prec : Z := 53.
Definition emax : Z := 1024.

Definition zero : float := S754_zero false.
Definition one : float := S754_finite false 4503599627370496 (-52).

(** [a * b] on two floats. *)
Definition mul (a b : float) : float := SFmul prec emax a b.

(** [a >= b]: false as soon as one side is NaN. *)
Definition ge (a b : float) : bool := SFleb b a.
Definition lt (a b : float) : bool := SFltb a b.
Definition eq (a b : float) : bool := SFeqb a b.

(** [float(n)] for a Python int, rounding to nearest even;
    an int too large for a double raises [OverflowError]. *)
Definition of_int (n : Z) : result float :=
  match binary_normalize prec emax n 0 false with
  | S754_infinity _ => Raise OverflowError
  | f => Ok f
  end.

(** [int(x)]: truncation toward zero; NaN raises [ValueError],
    an infinity raises [OverflowError]. *)
Definition to_int (x : float) : result Z :=
  match x with
  | S754_nan => Raise ValueError
  | S754_infinity _ => Raise OverflowError
  | S754_zero _ => Ok 0
  | S754_finite s m e =>
      let mag := match e with
                 | Zneg k => Z.shiftr (Zpos m) (Zpos k)
                 | _ => Z.shiftl (Zpos m) e
                 end in
      Ok (if s then - mag else mag)
  end.

(** [x * n] with a float [x] and an int [n]: the int is converted first. *)
Definition mul_int (x : float) (n : Z) : result float :=
  fn <- of_int n ;; Ok (mul x fn).

Definition is_finite (x : float) : bool :=
  match x with
  | S754_zero _ | S754_finite _ _ _ => true
  | S754_infinity _ | S754_nan => false
  end.

(** The literals of the source. *)
Definition f0_8 : float := S754_finite false 7205759403792794 (-53).
Definition f1_0 : float := one.
Definition f2_0 : float := S754_finite false 4503599627370496 (-51).

(** Other values used in the examples: 3.0, 1.5 and 0.92. *)
Definition f3_0 : float := S754_finite false 6755399441055744 (-51).
Definition f1_5 : float := S754_finite false 6755399441055744 (-52).
Definition f0_92 : float := S754_finite false 8286623314361713 (-53).

End PyFloat.

(** ** NumPy one-dimensional arrays *)

Module Np.

Definition ndarray : Type := list float.

Definition len (a : ndarray) : Z := Z.of_nat (List.length a).

(** [np.zeros(n)]: a negative dimension raises [ValueError].  The
    allocation itself is taken to succeed: the limits of the machine (a
    dimension beyond the index range, memory that cannot be had), where
    NumPy raises as well, are not part of the model, so [zeros n = Ok _]
    is to be read for sizes the process can allocate. *)
Definition zeros (n : Z) : result ndarray :=
  if n <? 0 then Raise ValueError
  else Ok (List.repeat PyFloat.zero (Z.to_nat n)).

(** [np.roll(a, shift)] on one axis: element [i] moves to index
    [(i + shift) mod len(a)]; the empty array is returned as it is. *)
Definition roll (a : ndarray) (shift : Z) : ndarray :=
  let n := len a in
  if n =? 0 then a
  else
    let k := Z.to_nat ((- shift) mod n) in
    List.skipn k a ++ List.firstn k a.

(** [a[start:]] bounds for a start index as Python resolves it: a
    negative index counts from the end, and the result is clamped to
    [0 .. len(a)]. *)
Definition slice_start (n start : Z) : Z :=
  if start <? 0 then Z.max 0 (n + start) else Z.min start n.

(** [a[start:] = v]: the value is copied when the shapes agree, a
    one-element value is broadcast, anything else raises [ValueError]
    (could not broadcast input array). *)
Definition set_tail (a : ndarray) (start : Z) (v : ndarray) : result ndarray :=
  let n := len a in
  let s := slice_start n start in
  let m := n - s in
  if len v =? m then Ok (List.firstn (Z.to_nat s) a ++ v)
  else
    match v with
    | [x] => Ok (List.firstn (Z.to_nat s) a ++ List.repeat x (Z.to_nat m))
    | _ => Raise ValueError
    end.

(** [a[start:stop]]: both bounds are resolved like a slice start. *)
Definition slice (a : ndarray) (start stop : Z) : ndarray :=
  let n := len a in
  let s := slice_start n start in
  let e := slice_start n stop in
  List.firstn (Z.to_nat (e - s)) (List.skipn (Z.to_nat s) a).

End Np.

(** ** The rolling buffer of [stream_and_detect] (lines 63, 80-81) *)

Module RingBuffer.

Definition sr : Z := 16000.

(** [audio_buffer = np.zeros(int(window_seconds * sr), dtype=np.float32)] *)
Definition init (window_seconds : float) : result Np.ndarray :=
  w <- PyFloat.mul_int window_seconds sr ;;
  n <- PyFloat.to_int w ;;
  Np.zeros n.

(** [audio_buffer = np.roll(audio_buffer, -len(block))]
    [audio_buffer[-len(block):] = block] *)
Definition push (audio_buffer block : Np.ndarray) : result Np.ndarray :=
  let rolled := Np.roll audio_buffer (- Np.len block) in
  Np.set_tail rolled (- Np.len block) block.

(** The buffer handed to the classifier: the array itself. *)
Definition snapshot (audio_buffer : Np.ndarray) : Np.ndarray := audio_buffer.

(** Folding a sequence of blocks, stopping at the first exception. *)
Fixpoint push_all (audio_buffer : Np.ndarray) (blocks : list Np.ndarray)
  : result Np.ndarray :=
  match blocks with
  | [] => Ok audio_buffer
  | b :: rest => buf' <- push audio_buffer b ;; push_all buf' rest
  end.

(** The last [n] elements of a list. *)
Definition lastn {A : Type} (n : nat) (l : list A) : list A :=
  List.skipn (List.length l - n) l.

(** A block the buffer can take: at least one sample, at most the
    capacity. *)
Definition fits (cap : nat) (block : Np.ndarray) : Prop :=
  1 <= Np.len block <= Z.of_nat cap.

(** The sliding-window property of a run of pushes on a silent buffer:
    every push goes through, the length stays at the capacity and the
    snapshot is the last [cap] samples of silence followed by all blocks. *)
Definition sliding_window (cap : nat) (blocks : list Np.ndarray) : Prop :=
  exists buf,
    push_all (List.repeat PyFloat.zero cap) blocks = Ok buf /\
    List.length (snapshot buf) = cap /\
    snapshot buf = lastn cap (List.repeat PyFloat.zero cap ++ List.concat blocks).

End RingBuffer.


(** ** Feature extraction ([src/utils/audio_features.py]) *)

Module Features.

Inductive dtype : Type := float32 | float64.

(** [np.finfo(dtype).max] *)
Definition finfo_max (dt : dtype) : float :=
  match dt with
  | float32 => S754_finite false 16777215 104
  | float64 => S754_finite false 9007199254740991 971
  end.

(** [np.nan_to_num] on one sample: NaN becomes 0.0, an infinity becomes the
    largest finite value of the dtype with the same sign. *)
Definition nan_to_num_sample (dt : dtype) (x : float) : float :=
  match x with
  | S754_nan => PyFloat.zero
  | S754_infinity false => finfo_max dt
  | S754_infinity true => SFopp (finfo_max dt)
  | _ => x
  end.

Definition nan_to_num (dt : dtype) (a : Np.ndarray) : Np.ndarray :=
  List.map (nan_to_num_sample dt) a.

(** The audio argument: one-dimensional, or channels by samples. *)
Inductive audio_array : Type :=
| Mono (a : Np.ndarray)
| Multi (rows : list Np.ndarray).

(** A librosa feature: one row per coefficient, one column per frame. *)
Definition matrix : Type := list Np.ndarray.

(** The librosa calls of [extract_features]; each may raise. *)
Record Librosa : Type := {
  mfcc : Np.ndarray -> Z -> Z -> result matrix;
  delta : matrix -> Z -> result matrix;
  spectral_centroid : Np.ndarray -> Z -> result matrix;
  spectral_bandwidth : Np.ndarray -> Z -> result matrix;
  spectral_contrast : Np.ndarray -> Z -> result matrix;
  spectral_rolloff : Np.ndarray -> Z -> result matrix;
  zero_crossing_rate : Np.ndarray -> result matrix
}.

(** The NumPy reductions of [extract_features]. *)
Record Reductions : Type := {
  mean : Np.ndarray -> float;
  std : Np.ndarray -> float;
  mean_axis0 : list Np.ndarray -> Np.ndarray
}.

(** [agg]: mean and standard deviation over time of every row. *)
Definition agg (np : Reductions) (feat : matrix) : Np.ndarray :=
  List.map (mean np) feat ++ List.map (std np) feat.

(** Lines 10-13: mix down to mono, then make every sample finite. *)
Definition sanitize (np : Reductions) (dt : dtype) (audio : audio_array)
  : Np.ndarray :=
  let audio := match audio with
               | Mono a => a
               | Multi rows => mean_axis0 np rows
               end in
  nan_to_num dt audio.

(** Lines 15-42, on the audio as [sanitize] left it. *)
Definition compute_features (lib : Librosa) (np : Reductions)
  (audio : Np.ndarray) (sr : Z) : result Np.ndarray :=
  mfcc_ <- mfcc lib audio sr 20 ;;
  mfcc_delta <- delta lib mfcc_ 1 ;;
  mfcc_delta2 <- delta lib mfcc_ 2 ;;
  spec_centroid <- spectral_centroid lib audio sr ;;
  spec_bw <- spectral_bandwidth lib audio sr ;;
  spec_contrast <- spectral_contrast lib audio sr ;;
  spec_rolloff <- spectral_rolloff lib audio sr ;;
  zcr <- zero_crossing_rate lib audio ;;
  Ok (List.concat
        [agg np mfcc_; agg np mfcc_delta; agg np mfcc_delta2;
         agg np spec_centroid; agg np spec_bw; agg np spec_contrast;
         agg np spec_rolloff; agg np zcr]).

Definition extract_features (lib : Librosa) (np : Reductions) (dt : dtype)
  (audio : audio_array) (sr : Z) : result Np.ndarray :=
  compute_features lib np (sanitize np dt audio) sr.

(** [range(start, stop, step)] *)
Definition py_range (start stop step : Z) : result (list Z) :=
  if step =? 0 then Raise ValueError
  else
    let count :=
      if 0 <? step then (stop - start + step - 1) / step
      else (start - stop - step - 1) / (- step) in
    Ok (List.map (fun i => start + Z.of_nat i * step)
                 (List.seq 0 (Z.to_nat count))).

(** The body of the [for] loop of [frame_audio], with its [break]. *)
Fixpoint frame_loop (audio : Np.ndarray) (sr win : Z) (starts : list Z)
  : list (Np.ndarray * Z) :=
  match starts with
  | [] => []
  | start :: rest =>
      let stop := start + win in
      if Np.len audio <? stop then []
      else (Np.slice audio start stop, sr) :: frame_loop audio sr win rest
  end.

Definition frame_audio (audio : Np.ndarray) (sr : Z)
  (window_seconds hop_seconds : float) : result (list (Np.ndarray * Z)) :=
  w <- PyFloat.mul_int window_seconds sr ;;
  win <- PyFloat.to_int w ;;
  h <- PyFloat.mul_int hop_seconds sr ;;
  hop <- PyFloat.to_int h ;;
  starts <- py_range 0 (Z.max 1 (Np.len audio - win + 1)) hop ;;
  Ok (frame_loop audio sr win starts).

End Features.

(** ** [queue.Queue] *)

Module PyQueue.

Record t : Type := {
  maxsize : Z;
  items : list Np.ndarray
}.

(** [queue.Queue(maxsize)]; [queue.Queue()] is [new 0]. *)
Definition new (maxsize : Z) : t := {| maxsize := maxsize; items := [] |}.

Definition qsize (q : t) : Z := Z.of_nat (List.length (items q)).

(** A queue is full only when it has a positive [maxsize]. *)
Definition full (q : t) : bool :=
  (0 <? maxsize q) && (maxsize q <=? qsize q).

(** [q.put(item)]: appended at the tail; [None] when the caller would
    block on a full queue. *)
Definition put (q : t) (item : Np.ndarray) : option t :=
  if full q then None
  else Some {| maxsize := maxsize q; items := items q ++ [item] |}.

(** [q.get(timeout=...)]: the head, or [None] for [queue.Empty]. *)
Definition get (q : t) : option (Np.ndarray * t) :=
  match items q with
  | [] => None
  | x :: rest => Some (x, {| maxsize := maxsize q; items := rest |})
  end.

End PyQueue.

(** ** The real-time pipeline ([src/realtime/listen_and_detect.py]) *)

Module Pipeline.

Import Features.

Definition sr : Z := RingBuffer.sr.

Record Args : Type := {
  location : string;
  threshold : float;
  window : float;
  hop : float
}.

Definition default {A : Type} (d : A) (o : option A) : A :=
  match o with Some a => a | None => d end.

(** [parse_args]: [--location] is required, the three floats have
    defaults; nothing else is looked at. *)
Definition parse_args (location_ : string)
  (threshold_ window_ hop_ : option float) : Args :=
  {| location := location_;
     threshold := default PyFloat.f0_8 threshold_;
     window := default PyFloat.f2_0 window_;
     hop := default PyFloat.f1_0 hop_ |}.

(** A row of the [events] table. *)
Record EventRow : Type := {
  timestamp_utc : nat;
  ev_location : string;
  probability : float
}.

Inductive line : Type :=
| Listening_banner
| Laughter_detected (now : nat) (p : float) (loc : string).

(** The classifier loaded from disk:
    [float(clf.predict_proba([feat])[0][1])]. *)
Record Classifier : Type := {
  predict_proba : Np.ndarray -> result float
}.

(** What the process finds around it at startup. *)
Record Env : Type := {
  model_exists : bool;
  joblib_load : result unit;
  input_stream : Z -> result unit
}.

Record State : Type := {
  audio_buffer : Np.ndarray;
  db : list EventRow;
  stdout : list line
}.

(** [log_event]: one row appended, [float(prob)] stored as it is. *)
Definition log_event (rows : list EventRow) (now : nat) (loc : string)
  (prob : float) : list EventRow :=
  rows ++ [{| timestamp_utc := now; ev_location := loc; probability := prob |}].

Definition load_model (env : Env) : result unit :=
  if model_exists env then joblib_load env else Raise FileNotFoundError.

(** [stream_and_detect] up to the [while True]: lines 50-72.  [init_db]
    creates the table when it is missing and keeps the rows it finds
    ([db0]); the database file is taken to be usable, the failures of
    the file system and of SQLite in [init_db] are not part of the model.
    Then the model is loaded, the block size and the buffer are computed
    from the arguments as they are, and the input stream is opened.  A
    startup that succeeds in the program succeeds here; the converse
    holds when the database opens and the buffer can be allocated. *)
Definition startup (env : Env) (args : Args) (db0 : list EventRow)
  : result State :=
  _ <- load_model env ;;
  h <- PyFloat.mul_int (hop args) sr ;;
  block_size <- PyFloat.to_int h ;;
  buf <- RingBuffer.init (window args) ;;
  _ <- input_stream env block_size ;;
  Ok {| audio_buffer := buf; db := db0; stdout := [Listening_banner] |}.

(** Lines 79-88: one block taken from the queue.  The buffer is rolled,
    the window is converted to float64 (the values are unchanged) and
    scored, and the score is compared with the threshold. *)
Definition process_block (lib : Librosa) (np : Reductions) (clf : Classifier)
  (args : Args) (st : State) (block : Np.ndarray) (now : nat) : result State :=
  buf <- RingBuffer.push (audio_buffer st) block ;;
  feat <- extract_features lib np float64 (Mono buf) sr ;;
  prob <- predict_proba clf feat ;;
  if PyFloat.ge prob (threshold args) then
    Ok {| audio_buffer := buf;
          db := log_event (db st) now (location args) prob;
          stdout := stdout st ++ [Laughter_detected now prob (location args)] |}
  else
    Ok {| audio_buffer := buf; db := db st; stdout := stdout st |}.

(** The two threads: the device calls [audio_callback] with a block, the
    consumer polls the queue. *)
Inductive event : Type :=
| Callback (indata : Np.ndarray)
| Poll (now : nat).

Record Sys : Type := {
  q_in : PyQueue.t;
  st : State
}.

(** [audio_callback]: the block is put on the queue (a status, when
    there is one, only goes to stderr).  A put on a full queue would make
    the callback wait; the queue is unchanged until then. *)
Definition audio_callback (q : PyQueue.t) (indata : Np.ndarray) : PyQueue.t :=
  match PyQueue.put q indata with
  | Some q' => q'
  | None => q
  end.

(** One turn of the [while True] loop, or one callback. *)
Definition step (lib : Librosa) (np : Reductions) (clf : Classifier)
  (args : Args) (s : Sys) (ev : event) : result Sys :=
  match ev with
  | Callback indata =>
      Ok {| q_in := audio_callback (q_in s) indata; st := st s |}
  | Poll now =>
      match PyQueue.get (q_in s) with
      | None => Ok s
      | Some (block, q') =>
          st' <- process_block lib np clf args (st s) block now ;;
          Ok {| q_in := q'; st := st' |}
      end
  end.

(** How a run ends.  [Crashed s e]: the exception [e] left the loop in
    the turn that started in [s]; the table and the output of [s] are
    those at the raise (nothing is logged or printed in a turn that
    raises), while its queue and buffer are those at the start of the
    turn, before the block was taken. *)
Inductive outcome : Type :=
| Aborted (e : exn)
| Listening (s : Sys)
| Crashed (s : Sys) (e : exn).

(** The loop over a schedule of events; an exception ends it. *)
Fixpoint run (lib : Librosa) (np : Reductions) (clf : Classifier)
  (args : Args) (s : Sys) (events : list event) : outcome :=
  match events with
  | [] => Listening s
  | ev :: rest =>
      match step lib np clf args s ev with
      | Ok s' => run lib np clf args s' rest
      | Raise e => Crashed s e
      end
  end.

Definition stream_and_detect (lib : Librosa) (np : Reductions)
  (clf : Classifier) (env : Env) (args : Args) (db0 : list EventRow)
  (events : list event) : outcome :=
  match startup env args db0 with
  | Raise e => Aborted e
  | Ok st0 => run lib np clf args {| q_in := PyQueue.new 0; st := st0 |} events
  end.

(** *** The specification's side, for comparison *)

(** The clamp to [[0,1]] the specification asks for. *)
Definition spec_clamp01 (p : float) : float :=
  if PyFloat.lt p PyFloat.zero then PyFloat.zero
  else if PyFloat.lt PyFloat.one p then PyFloat.one
  else p.


(** The row emitted for a score [p], if any, had the score been clamped
    before the comparison and before the insert. *)
Definition spec_rows (args : Args) (now : nat) (p : float) : list EventRow :=
  let p' := spec_clamp01 p in
  if PyFloat.ge p' (threshold args) then
    [{| timestamp_utc := now; ev_location := location args; probability := p' |}]
  else [].

(** "The probability is clamped before it is compared and recorded." *)
Definition spec_clamped (lib : Librosa) (np : Reductions) (clf : Classifier)
  (args : Args) (st : State) (block : Np.ndarray) (now : nat) : Prop :=
  forall buf feat p,
    RingBuffer.push (audio_buffer st) block = Ok buf ->
    extract_features lib np float64 (Mono buf) sr = Ok feat ->
    predict_proba clf feat = Ok p ->
    exists st',
      process_block lib np clf args st block now = Ok st' /\
      db st' = db st ++ spec_rows args now p.

(** "An event is emitted if and only if the clamped probability is
    greater than or equal to the threshold." *)
Definition spec_decision_clamped (lib : Librosa) (np : Reductions)
  (clf : Classifier) (args : Args) (st : State) (block : Np.ndarray)
  (now : nat) : Prop :=
  forall buf feat p,
    RingBuffer.push (audio_buffer st) block = Ok buf ->
    extract_features lib np float64 (Mono buf) sr = Ok feat ->
    predict_proba clf feat = Ok p ->
    exists st',
      process_block lib np clf args st block now = Ok st' /\
      ((exists r, db st' = db st ++ [r]) <->
       PyFloat.ge (spec_clamp01 p) (threshold args) = true).

(** "A window whose extraction or classification fails is skipped and the
    loop goes on." *)
Definition spec_failure_contained (lib : Librosa) (np : Reductions)
  (clf : Classifier) (args : Args) (s : Sys) (now : nat) : Prop :=
  forall block q' buf,
    PyQueue.get (q_in s) = Some (block, q') ->
    RingBuffer.push (audio_buffer (st s)) block = Ok buf ->
    is_ok (feat <- extract_features lib np float64 (Mono buf) sr ;;
           predict_proba clf feat) = false ->
    step lib np clf args s (Poll now)
    = Ok {| q_in := q';
            st := {| audio_buffer := buf;
                     db := db (st s);
                     stdout := stdout (st s) |} |}.


(** "The queue never holds more than [N] blocks." *)
Definition spec_queue_bounded (N : nat) : Prop :=
  forall blocks : list Np.ndarray,
    (List.length
       (PyQueue.items (List.fold_left audio_callback blocks (PyQueue.new 0)))
     <= N)%nat.

(** *** Stand-ins for the collaborators, for the examples *)

Definition stub_librosa : Librosa :=
  {| mfcc := fun _ _ _ => Ok [];
     delta := fun _ _ => Ok [];
     spectral_centroid := fun _ _ => Ok [];
     spectral_bandwidth := fun _ _ => Ok [];
     spectral_contrast := fun _ _ => Ok [];
     spectral_rolloff := fun _ _ => Ok [];
     zero_crossing_rate := fun _ => Ok [] |}.

Definition stub_reductions : Reductions :=
  {| mean := fun _ => PyFloat.zero;
     std := fun _ => PyFloat.zero;
     mean_axis0 := fun _ => [] |}.

Definition constant_classifier (p : float) : Classifier :=
  {| predict_proba := fun _ => Ok p |}.

Definition failing_classifier : Classifier :=
  {| predict_proba := fun _ => Raise ValueError |}.

Definition good_env : Env :=
  {| model_exists := true;
     joblib_load := Ok tt;
     input_stream := fun _ => Ok tt |}.

Definition args_default : Args := parse_args "lab"%string None None None.

Definition st_small : State :=
  {| audio_buffer := [PyFloat.zero; PyFloat.zero]; db := []; stdout := [] |}.

(** One block waiting in the queue. *)
Definition sys_small : Sys :=
  {| q_in := {| PyQueue.maxsize := 0; PyQueue.items := [[PyFloat.one]] |};
     st := st_small |}.

(** [--hop 3.0 --window 2.0 --threshold 1.5] *)
Definition args_invalid : Args :=
  parse_args "lab"%string (Some PyFloat.f1_5) (Some PyFloat.f2_0)
    (Some PyFloat.f3_0).

End Pipeline.

(** ** Observations on a run of the loop *)

Module Schedule.

Import Pipeline.

(** The blocks the callbacks of a schedule deliver, in order. *)
Fixpoint callback_blocks (events : list event) : list Np.ndarray :=
  match events with
  | [] => []
  | Callback indata :: rest => indata :: callback_blocks rest
  | Poll _ :: rest => callback_blocks rest
  end.

(** The state a run ends in: the one the loop is in, or the one of
    [Crashed]. *)
Definition final_state (o : outcome) : option Sys :=
  match o with
  | Aborted _ => None
  | Listening s => Some s
  | Crashed s _ => Some s
  end.

(** The rows a run may add: scored at or above the threshold, with the
    location of the arguments. *)
Definition loggable (args : Args) (r : EventRow) : Prop :=
  PyFloat.ge (probability r) (threshold args) = true /\
  ev_location r = location args.

(** The line printed for a logged row. *)
Definition line_of (r : EventRow) : line :=
  Laughter_detected (timestamp_utc r) (probability r) (ev_location r).

(** A row without its label. *)
Definition unlabelled (r : EventRow) : nat * float :=
  (timestamp_utc r, probability r).

(** The same arguments with another location label or threshold. *)
Definition with_location (args : Args) (loc : string) : Args :=
  {| location := loc; threshold := threshold args;
     window := window args; hop := hop args |}.

Definition with_threshold (args : Args) (t : float) : Args :=
  {| location := location args; threshold := t;
     window := window args; hop := hop args |}.

(** Two runs that end alike: both still going, or both left by the same
    exception, in states related by [R]. *)
Definition same_outcome (R : Sys -> Sys -> Prop) (o1 o2 : outcome) : Prop :=
  match o1, o2 with
  | Aborted e1, Aborted e2 => e1 = e2
  | Listening s1, Listening s2 => R s1 s2
  | Crashed s1 e1, Crashed s2 e2 => e1 = e2 /\ R s1 s2
  | _, _ => False
  end.

(** Same queue, same buffer, and the same rows up to their label. *)
Definition same_but_labels (s1 s2 : Sys) : Prop :=
  q_in s1 = q_in s2 /\
  audio_buffer (st s1) = audio_buffer (st s2) /\
  List.map unlabelled (db (st s1)) = List.map unlabelled (db (st s2)).

Definition above (t : float) (r : EventRow) : bool :=
  PyFloat.ge (probability r) t.

(** Same queue, same buffer, and the first log is the second one with
    the rows below [t] left out, after the rows [d] both started from. *)
Definition filtered_log (t : float) (d : list EventRow) (s_t s_all : Sys)
  : Prop :=
  q_in s_t = q_in s_all /\
  audio_buffer (st s_t) = audio_buffer (st s_all) /\
  exists new,
    db (st s_all) = d ++ new /\
    db (st s_t) = d ++ List.filter (above t) new.

(** The state of [sys_small] after one poll with a classifier that
    answers 0.92. *)
Definition sys_after_poll : Sys :=
  {| q_in := {| PyQueue.maxsize := 0; PyQueue.items := [] |};
     st := {| audio_buffer := [PyFloat.zero; PyFloat.one];
              db := [{| timestamp_utc := 7; ev_location := "lab"%string;
                        probability := PyFloat.f0_92 |}];
              stdout := [Laughter_detected 7 PyFloat.f0_92 "lab"%string] |} |}.

(** How many blocks the polls of a schedule take from the queue
    ([queue.Queue()], without a bound), [waiting] blocks being queued at
    the start: a callback adds one, a poll takes one when there is one. *)
Fixpoint taken_count (waiting : nat) (events : list event) : nat :=
  match events with
  | [] => 0%nat
  | Callback _ :: rest => taken_count (S waiting) rest
  | Poll _ :: rest =>
      match waiting with
      | O => taken_count O rest
      | S w => S (taken_count w rest)
      end
  end.

(** The window the loop scores at its [k]-th block: the last
    [len(audio_buffer)] samples of the buffer followed by the first [k]
    blocks. *)
Definition window_after (buf : Np.ndarray) (blocks : list Np.ndarray)
  (k : nat) : Np.ndarray :=
  RingBuffer.lastn (List.length buf)
    (buf ++ List.concat (List.firstn k blocks)).

(** [extract_features] and then the classifier return on the window [a]. *)
Definition returns_on (lib : Features.Librosa) (np : Features.Reductions)
  (clf : Classifier) (a : Np.ndarray) : Prop :=
  exists feat p,
    Features.extract_features lib np Features.float64 (Features.Mono a) sr
    = Ok feat /\
    predict_proba clf feat = Ok p.

(** [--threshold 0.0] *)
Definition args_zero_threshold : Args :=
  parse_args "lab"%string (Some PyFloat.zero) None None.



(** -1.0 and a librosa stand-in with the shapes librosa documents: 20 MFCC
    rows, a delta of the shape of its input, 7 contrast rows and one row
    for each of the other features. *)
Definition f_minus_1 : float := S754_finite true 4503599627370496 (-52).

Definition shaped_librosa : Features.Librosa :=
  {| Features.mfcc := fun _ _ n_mfcc => Ok (List.repeat [] (Z.to_nat n_mfcc));
     Features.delta := fun m _ => Ok m;
     Features.spectral_centroid := fun _ _ => Ok [[]];
     Features.spectral_bandwidth := fun _ _ => Ok [[]];
     Features.spectral_contrast := fun _ _ => Ok (List.repeat [] 7);
     Features.spectral_rolloff := fun _ _ => Ok [[]];
     Features.zero_crossing_rate := fun _ => Ok [[]] |}.

End Schedule.

(** ** The training loop ([src/models/train.py], lines 29-65) *)

Module Training.

Import Features.

(** A row of [esc50.csv], for the two columns the loop reads. *)
Record MetaRow : Type := {
  filename : string;
  category : string
}.

Definition TARGET_SR : Z := 16000.

(** [load_audio_file]: [librosa.load(path, sr=TARGET_SR, mono=True)]
    gives float32 mono audio at the rate asked for; reading the file may
    raise. *)
Definition load_audio_file (load : string -> result Np.ndarray)
  (path : string) : result (Np.ndarray * Z) :=
  audio <- load path ;; Ok (audio, TARGET_SR).

(** [1 if label == "laughing" else 0] *)
Definition label_of (row : MetaRow) : Z :=
  if String.eqb (category row) "laughing" then 1 else 0.

(** The body of the [try]: the features of one file. *)
Definition features_of (lib : Librosa) (np : Reductions)
  (load : string -> result Np.ndarray) (row : MetaRow) : result Np.ndarray :=
  p <- load_audio_file load (filename row) ;;
  extract_features lib np float32 (Mono (fst p)) (snd p).

(** The [for row in meta] loop: [X] and [y] grow together on success, an
    exception is printed and the row is passed over. *)
Fixpoint collect (lib : Librosa) (np : Reductions)
  (load : string -> result Np.ndarray) (meta : list MetaRow)
  (X : list Np.ndarray) (y : list Z) : list Np.ndarray * list Z :=
  match meta with
  | [] => (X, y)
  | row :: rest =>
      match features_of lib np load row with
      | Ok feat => collect lib np load rest (X ++ [feat]) (y ++ [label_of row])
      | Raise _ => collect lib np load rest X y
      end
  end.

(** [np.vstack(X)]: an empty list, or rows of different lengths, raise
    [ValueError]. *)
Definition vstack (X : list Np.ndarray) : result matrix :=
  match X with
  | [] => Raise ValueError
  | x :: rest =>
      if List.forallb (fun r => Np.len r =? Np.len x) rest then Ok X
      else Raise ValueError
  end.

(** Lines 49-65: the loop, then [X_arr = np.vstack(X)] and
    [y_arr = np.array(y)]. *)
Definition prepare (lib : Librosa) (np : Reductions)
  (load : string -> result Np.ndarray) (meta : list MetaRow)
  : result (matrix * list Z) :=
  let '(X, y) := collect lib np load meta [] [] in
  X_arr <- vstack X ;;
  Ok (X_arr, y).

(** The rows whose file loads and whose features are computed. *)
Definition usable (lib : Librosa) (np : Reductions)
  (load : string -> result Np.ndarray) (row : MetaRow) : bool :=
  is_ok (features_of lib np load row).

(** A loader for the examples: one file is missing. *)
Definition load_all_but (missing : string) (path : string)
  : result Np.ndarray :=
  if String.eqb path missing then Raise FileNotFoundError
  else Ok [PyFloat.zero; PyFloat.one].

End Training.
(** ** Facts about the rolling buffer *)

Section RingBufferFacts.

Import RingBuffer.

Lemma len_nonneg (a : Np.ndarray) : 0 <= Np.len a.
Proof. unfold Np.len; lia. Qed.

Lemma len_app (a b : Np.ndarray) : Np.len (a ++ b) = Np.len a + Np.len b.
Proof. unfold Np.len; rewrite length_app; lia. Qed.

Lemma len_nil_inv (a : Np.ndarray) : Np.len a = 0 -> a = [].
Proof. destruct a; [reflexivity | unfold Np.len; simpl; lia]. Qed.

Lemma lastn_length {A : Type} (n : nat) (l : list A) :
  (n <= List.length l)%nat -> List.length (lastn n l) = n.
Proof. intros H; unfold lastn; rewrite length_skipn; lia. Qed.

Lemma lastn_app_skip {A : Type} (n : nat) (l r : list A) :
  (List.length r <= n <= List.length l + List.length r)%nat ->
  lastn n (l ++ r) = List.skipn (List.length l + List.length r - n) l ++ r.
Proof.
  intros H; unfold lastn.
  rewrite length_app, skipn_app.
  replace (List.length l + List.length r - n - List.length l)%nat with 0%nat by lia.
  reflexivity.
Qed.

(** Dropping from the front of a list never changes its last [n]
    elements, as long as [n] elements remain. *)
Lemma lastn_skipn {A : Type} (n j : nat) (l : list A) :
  (n + j <= List.length l)%nat -> lastn n (List.skipn j l) = lastn n l.
Proof.
  intros H; unfold lastn.
  rewrite skipn_skipn, length_skipn.
  f_equal; lia.
Qed.

Lemma lastn_lastn_app {A : Type} (n : nat) (l r : list A) :
  (n <= List.length l)%nat ->
  lastn n (lastn n l ++ r) = lastn n (l ++ r).
Proof.
  intros H; unfold lastn at 2.
  assert (E : List.skipn (List.length l - n) l ++ r
              = List.skipn (List.length l - n) (l ++ r)).
  { rewrite skipn_app.
    replace (List.length l - n - List.length l)%nat with 0%nat by lia.
    reflexivity. }
  rewrite E.
  apply lastn_skipn. rewrite length_app; lia.
Qed.

Lemma len_roll (a : Np.ndarray) (shift : Z) :
  Np.len (Np.roll a shift) = Np.len a.
Proof.
  unfold Np.roll.
  destruct (Np.len a =? 0) eqn:E; [reflexivity|].
  apply Z.eqb_neq in E. pose proof (len_nonneg a) as Ha.
  assert (Hm : 0 <= (- shift) mod Np.len a < Np.len a)
    by (apply Z.mod_pos_bound; lia).
  rewrite len_app. unfold Np.len in *.
  rewrite length_skipn, firstn_length_le by lia. lia.
Qed.

(** What one [push] does, by the sizes of the buffer and of the block. *)
Lemma push_in_range (buf block : Np.ndarray) :
  1 <= Np.len block <= Np.len buf ->
  push buf block = Ok (List.skipn (List.length block) buf ++ block).
Proof.
  intros [Hk Hn].
  unfold push, Np.roll, Np.set_tail, Np.slice_start.
  set (n := Np.len buf) in *. set (k := Np.len block) in *.
  destruct (n =? 0) eqn:En; [lia|].
  rewrite Z.opp_involutive.
  set (rolled := _ ++ _).
  assert (Hr : Np.len rolled = n).
  { unfold rolled. rewrite len_app. unfold Np.len.
    rewrite length_skipn, length_firstn. fold (Np.len buf). fold n.
    assert (0 <= k mod n < n) by (apply Z.mod_pos_bound; lia).
    unfold Np.len in n. lia. }
  rewrite Hr.
  destruct (- k <? 0) eqn:Ek; [|lia].
  replace (Z.max 0 (n + - k)) with (n - k) by lia.
  replace (n - (n - k)) with k by lia.
  rewrite Z.eqb_refl. f_equal. f_equal.
  unfold rolled.
  destruct (Z.eq_dec k n) as [Heq | Hne].
  - rewrite Heq, Z.sub_diag. simpl.
    symmetry. apply skipn_all2. unfold n, k, Np.len in *. lia.
  - rewrite Z.mod_small by lia.
    assert (Hkn : Z.to_nat k = List.length block) by (unfold k, Np.len; lia).
    rewrite Hkn.
    rewrite firstn_app.
    rewrite length_skipn.
    replace (Z.to_nat (n - k) - (List.length buf - List.length block))%nat
      with 0%nat by (unfold n, k, Np.len in *; lia).
    simpl. rewrite app_nil_r.
    apply firstn_all2. rewrite length_skipn. unfold n, k, Np.len in *; lia.
Qed.

Lemma push_empty_buffer (buf block : Np.ndarray) :
  Np.len buf = 0 -> Np.len block <= 1 -> push buf block = Ok [].
Proof.
  intros Hn Hk. apply len_nil_inv in Hn. subst buf.
  destruct block as [|x [|y rest]]; try reflexivity.
  unfold Np.len in Hk; simpl in Hk; lia.
Qed.

Lemma push_oversize (buf block : Np.ndarray) :
  Np.len buf < Np.len block -> 2 <= Np.len block ->
  push buf block = Raise ValueError.
Proof.
  intros Hn Hk.
  unfold push, Np.set_tail, Np.slice_start.
  pose proof (len_roll buf (- Np.len block)) as Hr.
  rewrite Hr.
  pose proof (len_nonneg buf).
  destruct (- Np.len block <? 0) eqn:Ek; [|lia].
  replace (Z.max 0 (Np.len buf + - Np.len block)) with 0 by lia.
  rewrite Z.sub_0_r.
  destruct (Np.len block =? Np.len buf) eqn:E; [lia|].
  destruct block as [|x [|y rest]]; try reflexivity.
  unfold Np.len in Hk; simpl in Hk; lia.
Qed.

Lemma push_empty_block (buf : Np.ndarray) :
  0 < Np.len buf -> push buf [] = Raise ValueError.
Proof.
  intros Hn. unfold push.
  change (- Np.len []) with 0.
  unfold Np.set_tail, Np.slice_start.
  rewrite len_roll.
  change (0 <? 0) with false. cbv beta iota zeta.
  change (Np.len []) with 0.
  destruct (0 =? Np.len buf - Z.min 0 (Np.len buf)) eqn:E; [lia | reflexivity].
Qed.

(** A successful [push] keeps the length and yields the last
    [len(buffer)] samples of buffer followed by block. *)
Lemma push_ok_inv (buf block buf' : Np.ndarray) :
  push buf block = Ok buf' ->
  List.length buf' = List.length buf /\
  buf' = lastn (List.length buf) (buf ++ block).
Proof.
  intros H.
  pose proof (len_nonneg buf) as Hb. pose proof (len_nonneg block) as Hk.
  destruct (Z.eq_dec (Np.len buf) 0) as [Hz | Hnz].
  - destruct (Z_le_gt_dec (Np.len block) 1) as [Hle | Hgt].
    + rewrite push_empty_buffer in H by assumption. injection H as <-.
      apply len_nil_inv in Hz. subst buf. split; [reflexivity|].
      unfold lastn. simpl. rewrite Nat.sub_0_r. symmetry. apply skipn_all.
    + rewrite push_oversize in H by lia. discriminate.
  - destruct (Z.eq_dec (Np.len block) 0) as [Hkz | Hknz].
    + apply len_nil_inv in Hkz. subst block.
      rewrite push_empty_block in H by lia. discriminate.
    + destruct (Z_le_gt_dec (Np.len block) (Np.len buf)) as [Hle | Hgt].
      * rewrite push_in_range in H by lia. injection H as <-.
        unfold Np.len in *.
        split.
        -- rewrite length_app, length_skipn. lia.
        -- rewrite lastn_app_skip by lia. f_equal. f_equal. lia.
      * rewrite push_oversize in H by lia. discriminate.
Qed.

Lemma skipn_repeat {A : Type} (x : A) (j n : nat) :
  List.skipn j (List.repeat x n) = List.repeat x (n - j).
Proof.
  revert j; induction n as [|n IH]; intros [|j]; simpl; auto.
Qed.

(** [init] computes the size once and returns that many zeros. *)
Lemma init_eq (window_seconds w : float) (n : Z) :
  PyFloat.mul_int window_seconds sr = Ok w ->
  PyFloat.to_int w = Ok n ->
  0 <= n ->
  init window_seconds = Ok (List.repeat PyFloat.zero (Z.to_nat n)).
Proof.
  intros Hw Hn Hpos. unfold init. rewrite Hw. simpl. rewrite Hn. simpl.
  unfold Np.zeros. destruct (n <? 0) eqn:E; [lia | reflexivity].
Qed.

Lemma init_two_seconds :
  init PyFloat.f2_0 = Ok (List.repeat PyFloat.zero (Z.to_nat 32000)).
Proof.
  apply init_eq with (w := S754_finite false 8796093022208000 (-38)).
  - vm_compute. reflexivity.
  - vm_compute. reflexivity.
  - lia.
Qed.

End RingBufferFacts.


(** ** The rolling buffer as a sliding window *)

Section SlidingWindow.

Import RingBuffer.

Lemma push_all_from (blocks : list Np.ndarray) :
  forall (buf : Np.ndarray),
    Forall (fits (List.length buf)) blocks ->
    exists buf',
      push_all buf blocks = Ok buf' /\
      List.length buf' = List.length buf /\
      buf' = lastn (List.length buf) (buf ++ List.concat blocks).
Proof.
  induction blocks as [|b rest IH]; intros buf Hfit.
  - exists buf. simpl. rewrite app_nil_r. unfold lastn.
    rewrite Nat.sub_diag. auto.
  - inversion Hfit as [|? ? Hb Hrest]; subst.
    unfold fits in Hb.
    assert (Hpush : push buf b = Ok (List.skipn (List.length b) buf ++ b))
      by (apply push_in_range; unfold Np.len in *; lia).
    destruct (push_ok_inv _ _ _ Hpush) as [Hlen Heq].
    set (buf1 := List.skipn (List.length b) buf ++ b) in *.
    destruct (IH buf1) as [buf' [Hrun [Hlen' Heq']]].
    { rewrite Hlen. exact Hrest. }
    exists buf'. simpl. rewrite Hpush. simpl. rewrite Hrun.
    split; [reflexivity|]. split; [congruence|].
    rewrite Heq', Hlen, Heq.
    rewrite lastn_lastn_app by (rewrite length_app; lia).
    rewrite <- app_assoc. reflexivity.
Qed.

(** Whatever the blocks, a run of pushes that completes leaves the
    buffer at its length, holding the last samples pushed. *)
Lemma push_all_ok_inv (blocks : list Np.ndarray) :
  forall (buf buf' : Np.ndarray),
    push_all buf blocks = Ok buf' ->
    List.length buf' = List.length buf /\
    buf' = lastn (List.length buf) (buf ++ List.concat blocks).
Proof.
  induction blocks as [|b rest IH]; intros buf buf' H.
  - simpl in H. injection H as <-. rewrite app_nil_r. unfold lastn.
    rewrite Nat.sub_diag. auto.
  - simpl in H. destruct (push buf b) as [buf1|e] eqn:Hpush; [|discriminate].
    simpl in H.
    destruct (push_ok_inv _ _ _ Hpush) as [Hlen Heq].
    destruct (IH _ _ H) as [Hlen' Heq'].
    split; [congruence|].
    rewrite Heq', Hlen, Heq.
    rewrite lastn_lastn_app by (rewrite length_app; lia).
    simpl. rewrite <- app_assoc. reflexivity.
Qed.

End SlidingWindow.

(** *** The buffer as a sliding window over the pushed samples *)

Section RingBufferClaims.

Import RingBuffer.

(** X26: for every sequence of pushed blocks, each holding at least one
    and at most [cap] samples, every push succeeds, the buffer (and so
    the snapshot) keeps the length [cap], and the snapshot is exactly
    the last [cap] samples pushed over all blocks, in order, preceded by
    the initial zeros while fewer than [cap] samples have arrived.  As
    every prefix of such a sequence is such a sequence, this holds after
    each push. *)
Theorem ring_buffer_sliding_window (cap : nat) (blocks : list Np.ndarray) :
  Forall (fits cap) blocks -> sliding_window cap blocks.
Proof.
  intros Hfit.
  destruct (push_all_from blocks (List.repeat PyFloat.zero cap))
    as [buf [Hrun [Hlen Heq]]].
  - rewrite repeat_length. exact Hfit.
  - rewrite repeat_length in Hlen, Heq.
    exists buf. unfold snapshot. auto.
Qed.

Lemma ring_buffer_sliding_window_witness :
  Forall (fits 3) [[PyFloat.one; PyFloat.f2_0]; [PyFloat.f3_0]; [PyFloat.f1_5; PyFloat.f0_8]]
  /\ sliding_window 3 [[PyFloat.one; PyFloat.f2_0]; [PyFloat.f3_0]; [PyFloat.f1_5; PyFloat.f0_8]].
Proof.
  assert (H : Forall (fits 3)
                [[PyFloat.one; PyFloat.f2_0]; [PyFloat.f3_0]; [PyFloat.f1_5; PyFloat.f0_8]]).
  { repeat constructor; unfold fits; vm_compute; discriminate. }
  split; [exact H | exact (ring_buffer_sliding_window 3 _ H)].
Defined.

(** C1: with [--window 2.0 --hop 3.0] the buffer has 32000 samples and
    the first block 48000.  The rolling update of lines 80-81 raises
    [ValueError] on that block, so no window over the pushed samples
    exists after the push: the sliding-window property fails on this
    sequence of one block. *)
Theorem sliding_window_fails_at_hop_above_window :
  push_all (List.repeat PyFloat.zero (Z.to_nat 32000))
           [List.repeat PyFloat.one (Z.to_nat 48000)]
  = Raise ValueError /\
  ~ sliding_window (Z.to_nat 32000) [List.repeat PyFloat.one (Z.to_nat 48000)].
Proof.
  assert (Hb : Np.len (List.repeat PyFloat.zero (Z.to_nat 32000)) = 32000)
    by (unfold Np.len; rewrite repeat_length, Z2Nat.id; lia).
  assert (Hk : Np.len (List.repeat PyFloat.one (Z.to_nat 48000)) = 48000)
    by (unfold Np.len; rewrite repeat_length, Z2Nat.id; lia).
  assert (Hp : push (List.repeat PyFloat.zero (Z.to_nat 32000))
                    (List.repeat PyFloat.one (Z.to_nat 48000))
               = Raise ValueError)
    by (apply push_oversize; rewrite ?Hb, ?Hk; lia).
  assert (Hall : push_all (List.repeat PyFloat.zero (Z.to_nat 32000))
                          [List.repeat PyFloat.one (Z.to_nat 48000)]
                 = Raise ValueError).
  { cbn [push_all]. rewrite Hp. reflexivity. }
  split; [exact Hall|].
  intros [buf [Hrun _]]. rewrite Hall in Hrun. discriminate.
Qed.

(** C2: a block longer than the buffer, of two samples or more, is not
    folded into the window: the slice assignment raises [ValueError], so
    no snapshot of its last samples is produced. *)
Theorem oversize_block_raises (buf block : Np.ndarray) :
  Np.len buf < Np.len block ->
  2 <= Np.len block ->
  push buf block = Raise ValueError /\
  forall rest, push_all buf (block :: rest) = Raise ValueError.
Proof.
  intros Hlong H2.
  assert (H : push buf block = Raise ValueError) by (apply push_oversize; assumption).
  split; [exact H|]. intros rest. simpl. rewrite H. reflexivity.
Qed.

Lemma oversize_block_raises_witness :
  init PyFloat.f2_0 = Ok (List.repeat PyFloat.zero (Z.to_nat 32000)) /\
  push (List.repeat PyFloat.zero (Z.to_nat 32000))
       (List.repeat PyFloat.one (Z.to_nat 48000))
  = Raise ValueError.
Proof.
  pose proof init_two_seconds as H.
  split; [exact H|].
  assert (Hb : Np.len (List.repeat PyFloat.zero (Z.to_nat 32000)) = 32000)
    by (unfold Np.len; rewrite repeat_length, Z2Nat.id; lia).
  assert (Hk : Np.len (List.repeat PyFloat.one (Z.to_nat 48000)) = 48000)
    by (unfold Np.len; rewrite repeat_length, Z2Nat.id; lia).
  assert (Hlong : Np.len (List.repeat PyFloat.zero (Z.to_nat 32000))
                  < Np.len (List.repeat PyFloat.one (Z.to_nat 48000)))
    by (rewrite Hb, Hk; lia).
  assert (H2 : 2 <= Np.len (List.repeat PyFloat.one (Z.to_nat 48000)))
    by (rewrite Hk; lia).
  destruct (oversize_block_raises _ _ Hlong H2) as [Hp _].
  exact Hp.
Defined.

(** C8: before any block is consumed the buffer holds
    [int(window_seconds * 16000)] samples, all of them zero, and the
    first block (of a size that fits) gives a well-defined window: the
    remaining zeros followed by the block. *)
Theorem initial_buffer_is_silence (window_seconds : float) (buf : Np.ndarray) :
  init window_seconds = Ok buf ->
  exists w n,
    PyFloat.mul_int window_seconds sr = Ok w /\
    PyFloat.to_int w = Ok n /\
    0 <= n /\
    Np.len buf = n /\
    buf = List.repeat PyFloat.zero (Z.to_nat n) /\
    Forall (fun x => x = PyFloat.zero) (snapshot buf) /\
    forall block, 1 <= Np.len block <= n ->
      push buf block
      = Ok (List.repeat PyFloat.zero (Z.to_nat n - List.length block) ++ block).
Proof.
  unfold init. intros H.
  destruct (PyFloat.mul_int window_seconds sr) as [w|e] eqn:Hw; [|discriminate].
  simpl in H.
  destruct (PyFloat.to_int w) as [n|e] eqn:Hn; [|discriminate].
  simpl in H. unfold Np.zeros in H.
  destruct (n <? 0) eqn:Hneg; [discriminate|].
  injection H as <-.
  apply Z.ltb_ge in Hneg.
  assert (Hlen : Np.len (List.repeat PyFloat.zero (Z.to_nat n)) = n)
    by (unfold Np.len; rewrite repeat_length; lia).
  exists w, n. repeat split; auto.
  - unfold snapshot. apply Forall_forall. intros x Hx.
    apply repeat_spec in Hx. exact Hx.
  - intros block Hb.
    rewrite push_in_range by lia.
    f_equal. f_equal.
    rewrite skipn_repeat. reflexivity.
Qed.

Lemma initial_buffer_is_silence_witness :
  init PyFloat.f2_0 = Ok (List.repeat PyFloat.zero (Z.to_nat 32000)) /\
  Np.len (List.repeat PyFloat.zero (Z.to_nat 32000)) = 32000.
Proof.
  pose proof init_two_seconds as H.
  split; [exact H|].
  destruct (initial_buffer_is_silence _ _ H)
    as [w [n [Hw [Hn [_ [Hlen _]]]]]].
  vm_compute in Hw. injection Hw as <-.
  vm_compute in Hn. injection Hn as <-.
  exact Hlen.
Defined.

End RingBufferClaims.

(** ** Facts about float comparison *)

Section FloatFacts.

Lemma cont_compare_antisym (m1 m2 : positive) :
  Pos.compare_cont Eq m2 m1 = CompOpp (Pos.compare_cont Eq m1 m2).
Proof. exact (Pos.compare_antisym m1 m2). Qed.

Lemma SFcompare_antisym (a b : float) :
  SFcompare b a = option_map CompOpp (SFcompare a b).
Proof.
  destruct a as [sa|sa| |sa ma ea], b as [sb|sb| |sb mb eb]; simpl;
    try reflexivity;
    try (destruct sa; reflexivity);
    try (destruct sb; reflexivity);
    try (destruct sa, sb; reflexivity).
  destruct sa, sb; simpl; try reflexivity;
    rewrite (Z.compare_antisym ea eb);
    destruct (ea ?= eb); simpl; try reflexivity;
    rewrite cont_compare_antisym;
    destruct (Pos.compare_cont Eq ma mb); reflexivity.
Qed.

(** [p < t] excludes [p >= t]. *)
Lemma lt_not_ge (p t : float) :
  PyFloat.lt p t = true -> PyFloat.ge p t = false.
Proof.
  unfold PyFloat.lt, PyFloat.ge, SFltb, SFleb.
  rewrite (SFcompare_antisym p t).
  destruct (SFcompare p t) as [[| |]|]; simpl; congruence.
Qed.

(** [p == t] gives [p >= t]. *)
Lemma eq_ge (p t : float) :
  PyFloat.eq p t = true -> PyFloat.ge p t = true.
Proof.
  unfold PyFloat.eq, PyFloat.ge, SFeqb, SFleb.
  rewrite (SFcompare_antisym p t).
  destruct (SFcompare p t) as [[| |]|]; simpl; congruence.
Qed.

(** [p >= t] is [p == t] or [t < p]. *)
Lemma ge_cases (p t : float) :
  PyFloat.ge p t = PyFloat.eq p t || PyFloat.lt t p.
Proof.
  unfold PyFloat.eq, PyFloat.ge, PyFloat.lt, SFeqb, SFleb, SFltb.
  rewrite (SFcompare_antisym p t).
  destruct (SFcompare p t) as [[| |]|]; reflexivity.
Qed.

(** A value already in [[0,1]] is left alone by the clamp. *)
Lemma spec_clamp01_in_range (p : float) :
  PyFloat.ge p PyFloat.zero = true ->
  PyFloat.ge PyFloat.one p = true ->
  Pipeline.spec_clamp01 p = p.
Proof.
  intros H0 H1. unfold Pipeline.spec_clamp01.
  destruct (PyFloat.lt p PyFloat.zero) eqn:E0.
  - apply lt_not_ge in E0. congruence.
  - destruct (PyFloat.lt PyFloat.one p) eqn:E1; [|reflexivity].
    apply lt_not_ge in E1. congruence.
Qed.

(** Two positive finite floats compare by exponent, then by mantissa. *)
Lemma SFcompare_pos_finite (m1 m2 : positive) (e1 e2 : Z) :
  SFcompare (S754_finite false m1 e1) (S754_finite false m2 e2)
  = Some (match e1 ?= e2 with
          | Lt => Lt
          | Gt => Gt
          | Eq => (m1 ?= m2)%positive
          end).
Proof. reflexivity. Qed.

(** For a threshold in (0,1] the comparison gives the same answer on a
    score and on its clamp, whatever the score. *)
Lemma clamp_decision_agrees (p t : float) :
  PyFloat.lt PyFloat.zero t = true ->
  PyFloat.ge PyFloat.one t = true ->
  PyFloat.ge (Pipeline.spec_clamp01 p) t = PyFloat.ge p t.
Proof.
  unfold Pipeline.spec_clamp01, PyFloat.lt, PyFloat.ge, SFltb, SFleb,
    PyFloat.zero, PyFloat.one.
  remember 4503599627370496%positive as C eqn:HC.
  intros Ht0 Ht1.
  destruct t as [st|st| |st mt et];
    cbv beta iota delta [SFcompare] in Ht0;
    try discriminate; destruct st; try discriminate.
  clear Ht0.
  destruct p as [sp|sp| |sp mp ep].
  - reflexivity.
  - destruct sp; cbv beta iota delta [SFcompare]; [reflexivity|].
    exact Ht1.
  - reflexivity.
  - destruct sp; [reflexivity|].
    change (SFcompare (S754_finite false mp ep) (S754_zero false))
      with (Some Gt).
    cbv beta iota.
    rewrite !SFcompare_pos_finite in *.
    revert Ht1.
    destruct (Z.compare_spec (-52) ep) as [E1|E1|E1];
      [destruct (Pos.compare_spec C mp) as [E2|E2|E2]| |];
      cbv beta iota; rewrite ?SFcompare_pos_finite; try reflexivity;
      destruct (Z.compare_spec et (-52)) as [E3|E3|E3];
      try (intros; discriminate);
      try (destruct (Pos.compare_spec mt C) as [E4|E4|E4];
           try (intros; discriminate));
      intros _;
      destruct (Z.compare_spec et ep) as [E5|E5|E5]; try lia; try reflexivity;
      destruct (Pos.compare_spec mt mp) as [E6|E6|E6]; try lia; try reflexivity.
Qed.

End FloatFacts.

(** ** The decision on one window *)

Section Decision.

Import Features Pipeline.

Variable lib : Librosa.
Variable np : Reductions.
Variable clf : Classifier.

(** What [process_block] does once the push, the extraction and the
    classification have gone through. *)
Lemma process_block_scored (args : Args) (st : State) (block : Np.ndarray)
  (now : nat) (buf feat : Np.ndarray) (p : float) :
  RingBuffer.push (audio_buffer st) block = Ok buf ->
  extract_features lib np float64 (Mono buf) sr = Ok feat ->
  predict_proba clf feat = Ok p ->
  process_block lib np clf args st block now
  = if PyFloat.ge p (threshold args) then
      Ok {| audio_buffer := buf;
            db := log_event (db st) now (location args) p;
            stdout := stdout st ++ [Laughter_detected now p (location args)] |}
    else
      Ok {| audio_buffer := buf; db := db st; stdout := stdout st |}.
Proof.
  intros Hpush Hfeat Hp. unfold process_block.
  rewrite Hpush. simpl. rewrite Hfeat. simpl. rewrite Hp. simpl.
  reflexivity.
Qed.

(** C3 (as amended): the probability is compared against the threshold
    and recorded exactly as the classifier returned it; there is no clamp.
    For a score already within [[0,1]] this is the clamped value. *)
Theorem probability_used_as_returned (args : Args) (st : State)
  (block : Np.ndarray) (now : nat) (buf feat : Np.ndarray) (p : float) :
  RingBuffer.push (audio_buffer st) block = Ok buf ->
  extract_features lib np float64 (Mono buf) sr = Ok feat ->
  predict_proba clf feat = Ok p ->
  exists st',
    process_block lib np clf args st block now = Ok st' /\
    db st' = db st ++
             (if PyFloat.ge p (threshold args) then
                [{| timestamp_utc := now; ev_location := location args;
                    probability := p |}]
              else []) /\
    (PyFloat.ge p PyFloat.zero = true -> PyFloat.ge PyFloat.one p = true ->
     db st' = db st ++ spec_rows args now p).
Proof.
  intros Hpush Hfeat Hp.
  rewrite (process_block_scored args st block now buf feat p Hpush Hfeat Hp).
  destruct (PyFloat.ge p (threshold args)) eqn:Hge.
  - eexists. split; [reflexivity|]. simpl. split; [reflexivity|].
    intros H0 H1. unfold spec_rows, log_event.
    rewrite (spec_clamp01_in_range p H0 H1), Hge. reflexivity.
  - eexists. split; [reflexivity|]. simpl. rewrite app_nil_r.
    split; [reflexivity|].
    intros H0 H1. unfold spec_rows.
    rewrite (spec_clamp01_in_range p H0 H1), Hge, app_nil_r. reflexivity.
Qed.

(** C4 (as amended): an event is emitted for a window exactly when its
    probability, as the classifier returned it, is greater than or equal
    to the threshold; a score equal to the threshold emits, a score below
    it does not.  For a threshold above 0 and at most 1 this is the
    decision on the clamped probability as well. *)
Theorem threshold_decision_inclusive (args : Args) (st : State)
  (block : Np.ndarray) (now : nat) (buf feat : Np.ndarray) (p : float) :
  RingBuffer.push (audio_buffer st) block = Ok buf ->
  extract_features lib np float64 (Mono buf) sr = Ok feat ->
  predict_proba clf feat = Ok p ->
  exists st',
    process_block lib np clf args st block now = Ok st' /\
    ((exists r, db st' = db st ++ [r] /\ probability r = p)
     <-> PyFloat.ge p (threshold args) = true) /\
    (PyFloat.ge p (threshold args) = false -> db st' = db st) /\
    (PyFloat.eq p (threshold args) = true ->
     exists r, db st' = db st ++ [r] /\ probability r = p) /\
    (PyFloat.lt p (threshold args) = true -> db st' = db st) /\
    (PyFloat.lt PyFloat.zero (threshold args) = true ->
     PyFloat.ge PyFloat.one (threshold args) = true ->
     ((exists r, db st' = db st ++ [r] /\ probability r = p)
      <-> PyFloat.ge (spec_clamp01 p) (threshold args) = true)).
Proof.
  intros Hpush Hfeat Hp.
  rewrite (process_block_scored args st block now buf feat p Hpush Hfeat Hp).
  destruct (PyFloat.ge p (threshold args)) eqn:Hge.
  - eexists. split; [reflexivity|]. simpl. unfold log_event.
    repeat split; intros; try discriminate.
    + eexists. split; reflexivity.
    + eexists. split; reflexivity.
    + apply lt_not_ge in H. congruence.
    + rewrite clamp_decision_agrees by assumption. exact Hge.
    + eexists. split; reflexivity.
  - eexists. split; [reflexivity|]. simpl.
    assert (Hnone : ~ exists r : EventRow, db st = db st ++ [r] /\ probability r = p).
    { intros [r [Hr _]].
      apply (f_equal (@List.length EventRow)) in Hr.
      rewrite length_app in Hr. simpl in Hr. lia. }
    repeat split; intros; try reflexivity; try discriminate.
    + contradiction.
    + apply eq_ge in H. congruence.
    + contradiction.
    + rewrite clamp_decision_agrees in H1 by assumption. congruence.
Qed.

End Decision.

Section DecisionExamples.

Import Features Pipeline.

Lemma probability_used_as_returned_witness :
  exists st',
    process_block stub_librosa stub_reductions (constant_classifier PyFloat.f0_92)
      args_default st_small [PyFloat.one] 7 = Ok st' /\
    List.map probability (db st') = [PyFloat.f0_92].
Proof.
  destruct (probability_used_as_returned stub_librosa stub_reductions
              (constant_classifier PyFloat.f0_92) args_default st_small
              [PyFloat.one] 7 [PyFloat.zero; PyFloat.one] [] PyFloat.f0_92)
    as [st' [Hrun [Hdb _]]].
  - vm_compute. reflexivity.
  - vm_compute. reflexivity.
  - vm_compute. reflexivity.
  - exists st'. split; [exact Hrun|]. rewrite Hdb. vm_compute. reflexivity.
Defined.

(** C3 as stated fails: a score of 1.5 is compared and recorded as 1.5,
    not as 1.0. *)
Lemma score_above_one_recorded_unclamped :
  ~ spec_clamped stub_librosa stub_reductions (constant_classifier PyFloat.f1_5)
      args_default st_small [PyFloat.one] 7.
Proof.
  intros H.
  destruct (H [PyFloat.zero; PyFloat.one] [] PyFloat.f1_5)
    as [st' [Hrun Hdb]]; try (vm_compute; reflexivity).
  vm_compute in Hrun. injection Hrun as <-.
  vm_compute in Hdb. discriminate.
Qed.

(** C4 as stated, on the clamped probability, fails: with a threshold of
    0.0 a score of -1.0 clamps to 0.0, which reaches the threshold, and
    yet no row is written. *)
Lemma negative_score_at_zero_threshold_not_emitted :
  ~ spec_decision_clamped stub_librosa stub_reductions
      (constant_classifier Schedule.f_minus_1) Schedule.args_zero_threshold
      st_small [PyFloat.one] 7.
Proof.
  intros H.
  destruct (H [PyFloat.zero; PyFloat.one] [] Schedule.f_minus_1)
    as [st' [Hrun [_ Hemit]]]; try (vm_compute; reflexivity).
  vm_compute in Hrun. injection Hrun as <-.
  destruct Hemit as [r Hr]; [vm_compute; reflexivity|].
  cbn [db st_small List.app] in Hr. discriminate.
Qed.

Lemma threshold_decision_inclusive_witness :
  exists st',
    process_block stub_librosa stub_reductions (constant_classifier PyFloat.f0_8)
      args_default st_small [PyFloat.one] 7 = Ok st' /\
    List.map probability (db st') = [PyFloat.f0_8].
Proof.
  destruct (threshold_decision_inclusive stub_librosa stub_reductions
              (constant_classifier PyFloat.f0_8) args_default st_small
              [PyFloat.one] 7 [PyFloat.zero; PyFloat.one] [] PyFloat.f0_8)
    as [st' [Hrun [_ [_ [Heq _]]]]].
  - vm_compute. reflexivity.
  - vm_compute. reflexivity.
  - vm_compute. reflexivity.
  - exists st'. split; [exact Hrun|].
    destruct Heq as [r [Hr Hp]]; [vm_compute; reflexivity|].
    rewrite Hr. simpl. rewrite Hp. reflexivity.
Defined.

End DecisionExamples.

(** ** The loop, the queue and the startup *)

Section Loop.

Import Features Pipeline.

Variable lib : Librosa.
Variable np : Reductions.
Variable clf : Classifier.

(** A queue made by [queue.Queue()] is never full. *)
Lemma callback_appends (q : PyQueue.t) (indata : Np.ndarray) :
  PyQueue.maxsize q = 0 ->
  audio_callback q indata
  = {| PyQueue.maxsize := 0; PyQueue.items := PyQueue.items q ++ [indata] |}.
Proof.
  intros Hm. unfold audio_callback, PyQueue.put, PyQueue.full.
  rewrite Hm. reflexivity.
Qed.

Lemma callbacks_append (blocks : list Np.ndarray) :
  forall q : PyQueue.t,
    PyQueue.maxsize q = 0 ->
    List.fold_left audio_callback blocks q
    = {| PyQueue.maxsize := 0; PyQueue.items := PyQueue.items q ++ blocks |}.
Proof.
  induction blocks as [|b rest IH]; intros q Hm.
  - simpl. rewrite app_nil_r. destruct q; simpl in *; congruence.
  - simpl. rewrite callback_appends by exact Hm.
    rewrite IH by reflexivity. simpl. rewrite <- app_assoc. reflexivity.
Qed.

Lemma run_callbacks (args : Args) (blocks : list Np.ndarray) :
  forall s : Sys,
    run lib np clf args s (List.map Callback blocks)
    = Listening {| q_in := List.fold_left audio_callback blocks (q_in s);
                   st := st s |}.
Proof.
  induction blocks as [|b rest IH]; intros s.
  - simpl. destruct s; reflexivity.
  - simpl. rewrite IH. reflexivity.
Qed.

(** The only exception the loop handles is [queue.Empty]. *)
Lemma poll_empty_continues (args : Args) (s : Sys) (now : nat) :
  PyQueue.get (q_in s) = None ->
  step lib np clf args s (Poll now) = Ok s.
Proof. intros H. unfold step. rewrite H. reflexivity. Qed.

(** C7 (as amended): the queue between the callback and the loop has no
    bound.  Every block handed to [audio_callback] is kept, in arrival
    order; none is evicted or dropped and the callback never fails, so
    pushing N+1 blocks before any is drained leaves N+1 blocks, the oldest
    of which is the next one the loop gets. *)
Theorem queue_keeps_every_block (args : Args) (st0 : State)
  (blocks : list Np.ndarray) :
  let q := {| PyQueue.maxsize := 0; PyQueue.items := blocks |} in
  run lib np clf args {| q_in := PyQueue.new 0; st := st0 |}
      (List.map Callback blocks)
  = Listening {| q_in := q; st := st0 |} /\
  PyQueue.qsize q = Z.of_nat (List.length blocks) /\
  PyQueue.full q = false /\
  forall b rest,
    blocks = b :: rest ->
    PyQueue.get q = Some (b, {| PyQueue.maxsize := 0; PyQueue.items := rest |}).
Proof.
  intros q. repeat split.
  - rewrite run_callbacks. simpl q_in.
    rewrite callbacks_append by reflexivity. reflexivity.
  - intros b rest ->. reflexivity.
Qed.

(** C5 (as amended): when the feature extraction or the classifier raises
    on a window, no event is emitted for it, and the exception leaves the
    loop: the run ends with that exception, its table and output being
    those before the block, and no later block is processed. *)
Theorem window_failure_ends_the_loop (args : Args) (s : Sys)
  (block : Np.ndarray) (q' : PyQueue.t) (buf : Np.ndarray) (now : nat)
  (e : exn) :
  PyQueue.get (q_in s) = Some (block, q') ->
  RingBuffer.push (audio_buffer (st s)) block = Ok buf ->
  (feat <- extract_features lib np float64 (Mono buf) sr ;;
   predict_proba clf feat) = Raise e ->
  step lib np clf args s (Poll now) = Raise e /\
  forall rest, run lib np clf args s (Poll now :: rest) = Crashed s e.
Proof.
  intros Hget Hpush Hfail.
  assert (Hstep : step lib np clf args s (Poll now) = Raise e).
  { unfold step. rewrite Hget. unfold process_block. rewrite Hpush. simpl.
    destruct (extract_features lib np float64 (Mono buf) sr) as [feat|e1];
      simpl in *.
    - rewrite Hfail. reflexivity.
    - congruence. }
  split; [exact Hstep|]. intros rest. cbn [run]. rewrite Hstep. reflexivity.
Qed.

End Loop.

Section Startup.

Import Features Pipeline.



End Startup.

Section LoopExamples.

Import Features Pipeline.

(** C7 as stated fails: no capacity bounds the queue. *)
Lemma queue_is_not_bounded : ~ exists N : nat, spec_queue_bounded N.
Proof.
  intros [N H]. specialize (H (List.repeat [] (S N))).
  rewrite (callbacks_append (List.repeat [] (S N)) (PyQueue.new 0) eq_refl)
    in H.
  cbn [PyQueue.items PyQueue.new List.app] in H.
  rewrite repeat_length in H. lia.
Qed.

Lemma window_failure_ends_the_loop_witness :
  run stub_librosa stub_reductions failing_classifier args_default sys_small
      [Poll 7; Callback [PyFloat.one]; Poll 8]
  = Crashed sys_small ValueError.
Proof.
  destruct (window_failure_ends_the_loop stub_librosa stub_reductions
              failing_classifier args_default sys_small [PyFloat.one]
              {| PyQueue.maxsize := 0; PyQueue.items := [] |}
              [PyFloat.zero; PyFloat.one] 7 ValueError) as [_ Hrun].
  - vm_compute. reflexivity.
  - vm_compute. reflexivity.
  - vm_compute. reflexivity.
  - exact (Hrun [Callback [PyFloat.one]; Poll 8]).
Defined.

(** C5 as stated fails: a classifier that raises ends the loop instead of
    being skipped. *)
Lemma classifier_failure_is_not_contained :
  ~ spec_failure_contained stub_librosa stub_reductions failing_classifier
      args_default sys_small 7.
Proof.
  intros H.
  specialize (H [PyFloat.one] {| PyQueue.maxsize := 0; PyQueue.items := [] |}
                [PyFloat.zero; PyFloat.one]).
  vm_compute in H.
  specialize (H eq_refl eq_refl eq_refl). discriminate.
Qed.




End LoopExamples.

(** ** Feature extraction and framing *)

Section FeatureFacts.

Import Features.

Variable lib : Librosa.
Variable np : Reductions.

Lemma finfo_max_finite (dt : dtype) : PyFloat.is_finite (finfo_max dt) = true.
Proof. destruct dt; reflexivity. Qed.

Lemma nan_to_num_sample_finite (dt : dtype) (x : float) :
  PyFloat.is_finite (nan_to_num_sample dt x) = true.
Proof. destruct x as [s|[|]| |s m e]; simpl; try reflexivity; destruct dt; reflexivity. Qed.

Lemma nan_to_num_sample_keeps (dt : dtype) (x : float) :
  PyFloat.is_finite x = true -> nan_to_num_sample dt x = x.
Proof. destruct x as [s|[|]| |s m e]; simpl; intros H; try reflexivity; discriminate. Qed.

Lemma nan_to_num_idempotent (dt : dtype) (a : Np.ndarray) :
  nan_to_num dt (nan_to_num dt a) = nan_to_num dt a.
Proof.
  unfold nan_to_num. rewrite map_map. apply map_ext. intros x.
  apply nan_to_num_sample_keeps, nan_to_num_sample_finite.
Qed.

(** C9: whatever the input holds, every sample handed to the feature
    computations is finite: a finite sample is kept, NaN becomes 0.0 and an
    infinity becomes the largest finite value of its sign; the returned
    vector is computed from that array alone. *)
Theorem extract_features_sanitizes (dt : dtype) (audio : audio_array) (sr : Z) :
  let raw := match audio with
             | Mono a => a
             | Multi rows => mean_axis0 np rows
             end in
  let clean := sanitize np dt audio in
  Forall (fun y => PyFloat.is_finite y = true) clean /\
  (forall i x,
      List.nth_error raw i = Some x ->
      exists y,
        List.nth_error clean i = Some y /\
        PyFloat.is_finite y = true /\
        (PyFloat.is_finite x = true -> y = x) /\
        (x = S754_nan -> y = PyFloat.zero) /\
        (x = S754_infinity false -> y = finfo_max dt) /\
        (x = S754_infinity true -> y = SFopp (finfo_max dt))) /\
  extract_features lib np dt audio sr = compute_features lib np clean sr /\
  extract_features lib np dt (Mono clean) sr
  = extract_features lib np dt audio sr.
Proof.
  intros raw clean.
  assert (Hclean : clean = nan_to_num dt raw) by reflexivity.
  repeat split.
  - rewrite Hclean. unfold nan_to_num. apply Forall_forall. intros y Hy.
    apply in_map_iff in Hy. destruct Hy as [x [<- _]].
    apply nan_to_num_sample_finite.
  - intros i x Hx. exists (nan_to_num_sample dt x).
    rewrite Hclean. unfold nan_to_num.
    rewrite nth_error_map, Hx. simpl.
    repeat split.
    + apply nan_to_num_sample_finite.
    + apply nan_to_num_sample_keeps.
    + intros ->. reflexivity.
    + intros ->. reflexivity.
    + intros ->. reflexivity.
  - unfold extract_features. unfold sanitize at 1.
    fold raw. rewrite Hclean, nan_to_num_idempotent. reflexivity.
Qed.

End FeatureFacts.

Section Framing.

Import Features.

Lemma py_range_forward (start stop step : Z) :
  0 < step ->
  py_range start stop step
  = Ok (List.map (fun i => start + Z.of_nat i * step)
          (List.seq 0 (Z.to_nat ((stop - start + step - 1) / step)))).
Proof.
  intros H. unfold py_range.
  destruct (step =? 0) eqn:E0; [lia|].
  destruct (0 <? step) eqn:E1; [reflexivity | lia].
Qed.

(** Without a [break] the loop appends one frame per start. *)
Lemma frame_loop_no_break (audio : Np.ndarray) (sr win : Z) (starts : list Z) :
  Forall (fun s => s + win <= Np.len audio) starts ->
  frame_loop audio sr win starts
  = List.map (fun s => (Np.slice audio s (s + win), sr)) starts.
Proof.
  induction starts as [|s rest IH]; intros H; [reflexivity|].
  inversion H as [|? ? Hs Hrest]; subst.
  simpl. destruct (Np.len audio <? s + win) eqn:E; [lia|].
  rewrite IH by assumption. reflexivity.
Qed.

Lemma nth_error_map_seq {A : Type} (f : nat -> A) (n : nat) :
  forall (a i : nat) (y : A),
    List.nth_error (List.map f (List.seq a n)) i = Some y ->
    y = f (a + i)%nat /\ (i < n)%nat.
Proof.
  induction n as [|n IH]; intros a i y H.
  - destruct i; discriminate.
  - destruct i as [|i]; simpl in H.
    + injection H as <-. rewrite Nat.add_0_r. split; [reflexivity | lia].
    + apply IH in H. destruct H as [-> Hi].
      rewrite Nat.add_succ_r. split; [reflexivity | lia].
Qed.

(** A slice that lies within the array has the length asked for. *)
Lemma slice_inside (a : Np.ndarray) (start stop : Z) :
  0 <= start <= stop -> stop <= Np.len a ->
  Np.slice a start stop
  = List.firstn (Z.to_nat (stop - start)) (List.skipn (Z.to_nat start) a) /\
  Np.len (Np.slice a start stop) = stop - start.
Proof.
  intros H1 H2. unfold Np.slice, Np.slice_start.
  destruct (start <? 0) eqn:E1; [lia|].
  destruct (stop <? 0) eqn:E2; [lia|].
  rewrite !Z.min_l by lia. split; [reflexivity|].
  unfold Np.len in *. rewrite length_firstn, length_skipn. lia.
Qed.

(** C10: with a window of [win >= 1] samples and a hop of [hop >= 1]
    samples, [frame_audio] returns; its [i]-th frame is the [win] samples
    starting at [i * hop], which all lie in the input, paired with the
    sample rate; an input shorter than a window gives no frame. *)
Theorem frame_audio_frames (audio : Np.ndarray) (sr : Z)
  (window_seconds hop_seconds w h : float) (win hop : Z) :
  PyFloat.mul_int window_seconds sr = Ok w ->
  PyFloat.to_int w = Ok win ->
  PyFloat.mul_int hop_seconds sr = Ok h ->
  PyFloat.to_int h = Ok hop ->
  0 < win ->
  0 < hop ->
  exists frames,
    frame_audio audio sr window_seconds hop_seconds = Ok frames /\
    (forall i f r,
        List.nth_error frames i = Some (f, r) ->
        r = sr /\
        Np.len f = win /\
        Z.of_nat i * hop + win <= Np.len audio /\
        f = List.firstn (Z.to_nat win)
              (List.skipn (Z.to_nat (Z.of_nat i * hop)) audio)) /\
    (Np.len audio < win -> frames = []).
Proof.
  intros Hw Hwin Hh Hhop Hwpos Hhpos.
  unfold frame_audio. rewrite Hw. cbn [bind]. rewrite Hwin. cbn [bind].
  rewrite Hh. cbn [bind]. rewrite Hhop. cbn [bind].
  rewrite py_range_forward by assumption. cbn [bind].
  pose proof (len_nonneg audio) as HL.
  set (L := Np.len audio) in *.
  rewrite Z.sub_0_r.
  destruct (Z_lt_ge_dec L win) as [Hshort | Hlong].
  - (* shorter than one window: one start, and the loop breaks on it *)
    replace (Z.max 1 (L - win + 1)) with 1 by lia.
    replace ((1 + hop - 1) / hop) with 1
      by (replace (1 + hop - 1) with (1 * hop) by lia;
          rewrite Z.div_mul by lia; reflexivity).
    change (Z.to_nat 1) with 1%nat.
    cbn [List.seq List.map frame_loop].
    replace (0 + Z.of_nat 0 * hop + win) with win by lia.
    fold L.
    destruct (L <? win) eqn:E; [|lia].
    exists []. split; [reflexivity|]. split; [|reflexivity].
    intros [|i] f r Hi; discriminate.
  - replace (Z.max 1 (L - win + 1)) with (L - win + 1) by lia.
    set (count := (L - win + 1 + hop - 1) / hop).
    assert (Hcount : count * hop <= L - win + 1 + hop - 1).
    { unfold count. rewrite Z.mul_comm. apply Z.mul_div_le. lia. }
    assert (Hcpos : 0 <= count) by (apply Z.div_pos; lia).
    assert (Hstarts :
              Forall (fun s => s + win <= L)
                (List.map (fun i : nat => 0 + Z.of_nat i * hop)
                   (List.seq 0 (Z.to_nat count)))).
    { apply Forall_forall. intros s Hs.
      apply in_map_iff in Hs. destruct Hs as [i [<- Hi]].
      apply in_seq in Hi. nia. }
    rewrite (frame_loop_no_break audio sr win _ Hstarts).
    rewrite map_map.
    eexists. split; [reflexivity|]. split; [|lia].
    intros i f r Hi.
    apply nth_error_map_seq in Hi. destruct Hi as [Heq Hlt].
    injection Heq as -> ->. simpl Nat.add.
    assert (Hin : Z.of_nat i * hop + win <= L) by nia.
    destruct (slice_inside audio (Z.of_nat i * hop)
                (Z.of_nat i * hop + win)) as [Hs Hl];
      [nia | fold L; lia |].
    split; [reflexivity|].
    split; [rewrite Hl; lia|].
    split; [exact Hin|].
    rewrite Hs. f_equal. f_equal. lia.
Qed.

Lemma frame_audio_frames_witness :
  exists frames,
    frame_audio
      [PyFloat.zero; PyFloat.one; PyFloat.f2_0; PyFloat.f3_0; PyFloat.f1_5]
      1 PyFloat.f3_0 PyFloat.f2_0 = Ok frames /\
    List.length frames = 2%nat.
Proof.
  destruct (frame_audio_frames
              [PyFloat.zero; PyFloat.one; PyFloat.f2_0; PyFloat.f3_0; PyFloat.f1_5]
              1 PyFloat.f3_0 PyFloat.f2_0 PyFloat.f3_0 PyFloat.f2_0 3 2)
    as [frames [Hrun _]]; try (vm_compute; reflexivity).
  exists frames. split; [exact Hrun|].
  vm_compute in Hrun. injection Hrun as <-. reflexivity.
Defined.

End Framing.

(** ** More on the rolling buffer *)

Section RingBufferMore.

Import RingBuffer.

(** X1: the buffer update goes through exactly when the block has at
    least one and at most [len(audio_buffer)] samples, or when the buffer
    is empty and the block has at most one sample; in every other case
    (an empty block on a non-empty buffer included) it raises. *)
Theorem push_succeeds_iff (buf block : Np.ndarray) :
  is_ok (push buf block) = true <->
  (1 <= Np.len block <= Np.len buf) \/
  (Np.len buf = 0 /\ Np.len block <= 1).
Proof.
  pose proof (len_nonneg buf) as Hb. pose proof (len_nonneg block) as Hk.
  split.
  - intros H.
    destruct (Z.eq_dec (Np.len buf) 0) as [Hz | Hnz].
    + right. split; [exact Hz|].
      destruct (Z_le_gt_dec (Np.len block) 1) as [Hle | Hgt]; [exact Hle|].
      rewrite push_oversize in H by lia. discriminate.
    + left.
      destruct (Z.eq_dec (Np.len block) 0) as [Hkz | Hknz].
      * apply len_nil_inv in Hkz. subst block.
        rewrite push_empty_block in H by lia. discriminate.
      * destruct (Z_le_gt_dec (Np.len block) (Np.len buf)) as [Hle | Hgt];
          [lia|].
        rewrite push_oversize in H by lia. discriminate.
  - intros [Hfit | [Hz Hle]].
    + rewrite push_in_range by exact Hfit. reflexivity.
    + rewrite push_empty_buffer by assumption. reflexivity.
Qed.

(** X2: whatever the buffer and the blocks, when a run of pushes
    completes the buffer has kept its length and holds the last
    [len(buffer)] samples of the old contents followed by all blocks. *)
Theorem completed_pushes_keep_window (buf buf' : Np.ndarray)
  (blocks : list Np.ndarray) :
  push_all buf blocks = Ok buf' ->
  List.length buf' = List.length buf /\
  buf' = lastn (List.length buf) (buf ++ List.concat blocks).
Proof. apply push_all_ok_inv. Qed.

Lemma completed_pushes_keep_window_witness :
  push_all [PyFloat.f0_8; PyFloat.f0_92; PyFloat.f1_5]
           [[PyFloat.one]; [PyFloat.f2_0; PyFloat.f3_0]]
  = Ok [PyFloat.one; PyFloat.f2_0; PyFloat.f3_0] /\
  List.length [PyFloat.one; PyFloat.f2_0; PyFloat.f3_0] = 3%nat.
Proof.
  assert (H : push_all [PyFloat.f0_8; PyFloat.f0_92; PyFloat.f1_5]
                [[PyFloat.one]; [PyFloat.f2_0; PyFloat.f3_0]]
              = Ok [PyFloat.one; PyFloat.f2_0; PyFloat.f3_0])
    by (vm_compute; reflexivity).
  split; [exact H|].
  destruct (completed_pushes_keep_window _ _ _ H) as [Hlen _].
  exact Hlen.
Defined.

(** X3: two blocks pushed one after the other leave the buffer as one
    push of their concatenation does, as long as together they fit. *)
Theorem push_twice_is_push_concat (buf b1 b2 : Np.ndarray) :
  1 <= Np.len b1 ->
  1 <= Np.len b2 ->
  Np.len b1 + Np.len b2 <= Np.len buf ->
  push_all buf [b1; b2] = push buf (b1 ++ b2).
Proof.
  intros H1 H2 Hfit.
  cbn [push_all].
  rewrite (push_in_range buf b1) by lia. cbn [bind].
  set (buf1 := List.skipn (List.length b1) buf ++ b1).
  assert (Hlen1 : Np.len buf1 = Np.len buf).
  { unfold buf1. rewrite len_app. unfold Np.len in *.
    rewrite length_skipn. lia. }
  rewrite (push_in_range buf1 b2) by lia. cbn [bind].
  rewrite (push_in_range buf (b1 ++ b2)) by (rewrite len_app; lia).
  f_equal. unfold buf1.
  rewrite skipn_app, skipn_skipn, length_skipn, length_app.
  replace (List.length b2 - (List.length buf - List.length b1))%nat
    with 0%nat by (unfold Np.len in *; lia).
  cbn [List.skipn]. rewrite <- app_assoc.
  f_equal. f_equal. lia.
Qed.

Lemma push_twice_is_push_concat_witness :
  push_all [PyFloat.zero; PyFloat.zero; PyFloat.zero]
           [[PyFloat.one]; [PyFloat.f2_0; PyFloat.f3_0]]
  = push [PyFloat.zero; PyFloat.zero; PyFloat.zero]
         ([PyFloat.one] ++ [PyFloat.f2_0; PyFloat.f3_0]).
Proof.
  apply (push_twice_is_push_concat
           [PyFloat.zero; PyFloat.zero; PyFloat.zero]
           [PyFloat.one] [PyFloat.f2_0; PyFloat.f3_0]);
    vm_compute; discriminate.
Defined.

(** X4: a block of exactly the buffer's length replaces the whole window. *)
Theorem push_full_block (buf block : Np.ndarray) :
  1 <= Np.len block ->
  Np.len block = Np.len buf ->
  push buf block = Ok block.
Proof.
  intros H1 Heq. rewrite push_in_range by lia.
  rewrite skipn_all2 by (unfold Np.len in *; lia). reflexivity.
Qed.

Lemma push_full_block_witness :
  push [PyFloat.zero; PyFloat.zero] [PyFloat.one; PyFloat.f2_0]
  = Ok [PyFloat.one; PyFloat.f2_0].
Proof.
  apply (push_full_block [PyFloat.zero; PyFloat.zero]
           [PyFloat.one; PyFloat.f2_0]).
  - vm_compute. discriminate.
  - reflexivity.
Defined.

End RingBufferMore.

(** ** What a run of the loop keeps *)

Section LoopInvariants.

Import Features Pipeline Schedule.

Variable lib : Librosa.
Variable np : Reductions.
Variable clf : Classifier.
Variable args : Args.

Lemma process_block_effect (st st' : State) (block : Np.ndarray) (now : nat) :
  process_block lib np clf args st block now = Ok st' ->
  RingBuffer.push (audio_buffer st) block = Ok (audio_buffer st') /\
  exists new,
    db st' = db st ++ new /\
    stdout st' = stdout st ++ List.map line_of new /\
    Forall (loggable args) new.
Proof.
  unfold process_block. intros H.
  destruct (RingBuffer.push (audio_buffer st) block) as [buf|e] eqn:Hpush;
    cbn [bind] in H; [|discriminate].
  destruct (extract_features lib np float64 (Mono buf) sr) as [feat|e];
    cbn [bind] in H; [|discriminate].
  destruct (predict_proba clf feat) as [p|e]; cbn [bind] in H; [|discriminate].
  destruct (PyFloat.ge p (threshold args)) eqn:Hge; injection H as <-;
    cbn [audio_buffer db stdout]; (split; [reflexivity|]).
  - eexists. split; [reflexivity|]. split; [reflexivity|].
    constructor; [|constructor]. split; [exact Hge | reflexivity].
  - exists []. rewrite !app_nil_r. repeat split. constructor.
Qed.

Lemma step_effect (s s' : Sys) (ev : event) :
  step lib np clf args s ev = Ok s' ->
  List.length (audio_buffer (st s')) = List.length (audio_buffer (st s)) /\
  exists new,
    db (st s') = db (st s) ++ new /\
    stdout (st s') = stdout (st s) ++ List.map line_of new /\
    Forall (loggable args) new.
Proof.
  destruct ev as [indata | now]; cbn [step]; intros H.
  - injection H as <-. cbn [st]. split; [reflexivity|].
    exists []. rewrite !app_nil_r. repeat split. constructor.
  - destruct (PyQueue.get (q_in s)) as [[block q']|].
    + destruct (process_block lib np clf args (st s) block now) as [st1|e] eqn:Hp;
        cbn [bind] in H; [|discriminate].
      injection H as <-. cbn [st].
      destruct (process_block_effect _ _ _ _ Hp) as [Hpush Hnew].
      split; [|exact Hnew].
      apply push_ok_inv in Hpush. apply Hpush.
    + injection H as <-. split; [reflexivity|].
      exists []. rewrite !app_nil_r. repeat split. constructor.
Qed.

Lemma run_effect (events : list event) :
  forall s s',
    final_state (run lib np clf args s events) = Some s' ->
    List.length (audio_buffer (st s')) = List.length (audio_buffer (st s)) /\
    exists new,
      db (st s') = db (st s) ++ new /\
      stdout (st s') = stdout (st s) ++ List.map line_of new /\
      Forall (loggable args) new.
Proof.
  induction events as [|ev rest IH]; intros s s' H.
  - cbn in H. injection H as <-. split; [reflexivity|].
    exists []. rewrite !app_nil_r. repeat split. constructor.
  - cbn [run] in H.
    destruct (step lib np clf args s ev) as [s1|e] eqn:Hstep.
    + destruct (step_effect _ _ _ Hstep) as [Hlen1 [new1 [Hdb1 [Hout1 Hall1]]]].
      destruct (IH _ _ H) as [Hlen2 [new2 [Hdb2 [Hout2 Hall2]]]].
      split; [congruence|].
      exists (new1 ++ new2).
      rewrite Hdb2, Hdb1, Hout2, Hout1, map_app, <- !app_assoc.
      repeat split. apply Forall_app. split; assumption.
    + cbn in H. injection H as <-. split; [reflexivity|].
      exists []. rewrite !app_nil_r. repeat split. constructor.
Qed.

(** X5: over any schedule, whether the loop is still running or has been
    left by an exception, the rows of the events table are only ever
    appended to, and each appended row was printed once, in the same
    order. *)
Theorem run_log_append_only (s s' : Sys) (events : list event) :
  final_state (run lib np clf args s events) = Some s' ->
  exists new,
    db (st s') = db (st s) ++ new /\
    stdout (st s') = stdout (st s) ++ List.map line_of new.
Proof.
  intros H. destruct (run_effect events s s' H) as [_ [new [Hdb [Hout _]]]].
  exists new. split; assumption.
Qed.

(** X6: every row a run adds has a probability greater than or equal to
    the threshold and carries the location given on the command line. *)
Theorem run_rows_meet_threshold (s s' : Sys) (events : list event) :
  final_state (run lib np clf args s events) = Some s' ->
  Forall (fun r => PyFloat.ge (probability r) (threshold args) = true /\
                   ev_location r = location args)
    (List.skipn (List.length (db (st s))) (db (st s'))).
Proof.
  intros H. destruct (run_effect events s s' H) as [_ [new [Hdb [_ Hall]]]].
  rewrite Hdb, skipn_app, Nat.sub_diag, skipn_all. exact Hall.
Qed.

(** X7: the rolling buffer has the same length after any schedule. *)
Theorem run_keeps_buffer_length (s s' : Sys) (events : list event) :
  final_state (run lib np clf args s events) = Some s' ->
  List.length (audio_buffer (st s')) = List.length (audio_buffer (st s)).
Proof. intros H. apply (run_effect events s s' H). Qed.

(** Runs compose. *)
Lemma run_app (e1 e2 : list event) :
  forall s,
    run lib np clf args s (e1 ++ e2)
    = match run lib np clf args s e1 with
      | Listening s1 => run lib np clf args s1 e2
      | o => o
      end.
Proof.
  induction e1 as [|ev rest IH]; intros s; [reflexivity|].
  cbn [List.app run].
  destruct (step lib np clf args s ev) as [s1|e]; [apply IH | reflexivity].
Qed.

(** X8: while the queue is empty, polling changes nothing: the timeout is
    taken and the loop goes round. *)
Theorem polls_on_empty_queue_do_nothing (s : Sys) (nows : list nat) :
  PyQueue.items (q_in s) = [] ->
  run lib np clf args s (List.map Poll nows) = Listening s.
Proof.
  intros Hq. induction nows as [|now rest IH]; [reflexivity|].
  cbn [List.map run step]. unfold PyQueue.get. rewrite Hq. exact IH.
Qed.

(** X9: a block put on the queue is never lost or reordered: in a run
    that is still going, the blocks that waited followed by the blocks
    the callbacks delivered are the blocks the loop has folded into the
    rolling buffer, one after the other in that order, followed by the
    blocks still waiting; the queue never becomes full. *)
Theorem queue_never_loses_a_block (events : list event) :
  forall s s',
    PyQueue.maxsize (q_in s) = 0 ->
    run lib np clf args s events = Listening s' ->
    PyQueue.maxsize (q_in s') = 0 /\
    PyQueue.full (q_in s') = false /\
    exists taken,
      PyQueue.items (q_in s) ++ callback_blocks events
      = taken ++ PyQueue.items (q_in s') /\
      RingBuffer.push_all (audio_buffer (st s)) taken
      = Ok (audio_buffer (st s')).
Proof.
  induction events as [|ev rest IH]; intros s s' Hm H.
  - cbn in H. injection H as <-. split; [exact Hm|].
    split; [unfold PyQueue.full; rewrite Hm; reflexivity|].
    exists []. cbn. rewrite app_nil_r. split; reflexivity.
  - cbn [run] in H. destruct ev as [indata | now]; cbn [step] in H.
    + rewrite callback_appends in H by exact Hm.
      apply IH in H; [|reflexivity].
      destruct H as [Hm' [Hf [taken [Ht Hb]]]].
      split; [exact Hm'|]. split; [exact Hf|].
      exists taken. cbn [q_in st PyQueue.items callback_blocks] in *.
      split; [|exact Hb].
      rewrite <- Ht, <- app_assoc. reflexivity.
    + unfold PyQueue.get in H.
      destruct (PyQueue.items (q_in s)) as [|x q'] eqn:Hq.
      * destruct (IH _ _ Hm H) as [Hm' [Hf [taken [Ht Hb]]]].
        split; [exact Hm'|]. split; [exact Hf|].
        exists taken. cbn [callback_blocks]. rewrite Hq in Ht.
        split; [exact Ht | exact Hb].
      * destruct (process_block lib np clf args (st s) x now) as [st1|e] eqn:Hp;
          cbn [bind] in H; [|discriminate].
        apply process_block_effect in Hp. destruct Hp as [Hpush _].
        apply IH in H; [|exact Hm].
        destruct H as [Hm' [Hf [taken [Ht Hb]]]].
        split; [exact Hm'|]. split; [exact Hf|].
        exists (x :: taken). cbn [q_in st PyQueue.items callback_blocks] in *.
        split.
        -- cbn [List.app]. rewrite <- Ht. reflexivity.
        -- cbn [RingBuffer.push_all]. rewrite Hpush. cbn [bind]. exact Hb.
Qed.

End LoopInvariants.

Section LoopInvariantExamples.

Import Features Pipeline Schedule.

Lemma one_poll_run :
  final_state (run stub_librosa stub_reductions
                 (constant_classifier PyFloat.f0_92) args_default sys_small
                 [Poll 7])
  = Some sys_after_poll.
Proof. vm_compute. reflexivity. Qed.

Lemma run_log_append_only_witness :
  exists new,
    db (st sys_after_poll) = db (st sys_small) ++ new /\
    stdout (st sys_after_poll) = stdout (st sys_small) ++ List.map line_of new.
Proof.
  exact (run_log_append_only stub_librosa stub_reductions
           (constant_classifier PyFloat.f0_92) args_default
           sys_small sys_after_poll [Poll 7] one_poll_run).
Defined.

Lemma run_rows_meet_threshold_witness :
  Forall (fun r => PyFloat.ge (probability r) (threshold args_default) = true /\
                   ev_location r = location args_default)
    (List.skipn (List.length (db (st sys_small))) (db (st sys_after_poll))).
Proof.
  exact (run_rows_meet_threshold stub_librosa stub_reductions
           (constant_classifier PyFloat.f0_92) args_default
           sys_small sys_after_poll [Poll 7] one_poll_run).
Defined.

Lemma run_keeps_buffer_length_witness :
  List.length (audio_buffer (st sys_after_poll))
  = List.length (audio_buffer (st sys_small)).
Proof.
  exact (run_keeps_buffer_length stub_librosa stub_reductions
           (constant_classifier PyFloat.f0_92) args_default
           sys_small sys_after_poll [Poll 7] one_poll_run).
Defined.

Lemma polls_on_empty_queue_do_nothing_witness :
  run stub_librosa stub_reductions failing_classifier args_default
      sys_after_poll (List.map Poll [8%nat; 9%nat; 10%nat])
  = Listening sys_after_poll.
Proof.
  apply (polls_on_empty_queue_do_nothing stub_librosa stub_reductions
           failing_classifier args_default sys_after_poll [8%nat; 9%nat; 10%nat]).
  reflexivity.
Defined.

Lemma queue_never_loses_a_block_witness :
  exists taken,
    PyQueue.items (q_in sys_small) ++ callback_blocks [Poll 7]
    = taken ++ PyQueue.items (q_in sys_after_poll) /\
    RingBuffer.push_all (audio_buffer (st sys_small)) taken
    = Ok (audio_buffer (st sys_after_poll)).
Proof.
  destruct (queue_never_loses_a_block stub_librosa stub_reductions
              (constant_classifier PyFloat.f0_92) args_default
              [Poll 7] sys_small sys_after_poll) as [_ [_ H]].
  - reflexivity.
  - vm_compute. reflexivity.
  - exact H.
Defined.

End LoopInvariantExamples.

(** ** Runs that go on, and runs that differ by one argument *)

Section LoopProgress.

Import Features Pipeline Schedule.

Variable lib : Librosa.
Variable np : Reductions.
Variable clf : Classifier.

Lemma window_after_first (buf x buf1 : Np.ndarray) (rest : list Np.ndarray) :
  RingBuffer.push buf x = Ok buf1 ->
  buf1 = window_after buf (x :: rest) 1.
Proof.
  intros H. apply push_ok_inv in H. destruct H as [_ ->].
  unfold window_after. cbn [List.firstn List.concat].
  rewrite app_nil_r. reflexivity.
Qed.

Lemma window_after_next (buf x buf1 : Np.ndarray) (rest : list Np.ndarray)
  (k : nat) :
  RingBuffer.push buf x = Ok buf1 ->
  window_after buf1 rest k = window_after buf (x :: rest) (S k).
Proof.
  intros H. apply push_ok_inv in H. destruct H as [Hlen ->].
  unfold window_after. rewrite Hlen. cbn [List.firstn List.concat].
  rewrite lastn_lastn_app by (rewrite length_app; lia).
  rewrite <- app_assoc. reflexivity.
Qed.

Lemma process_block_returns (args : Args) (st : State)
  (block buf1 : Np.ndarray) (now : nat) :
  RingBuffer.push (audio_buffer st) block = Ok buf1 ->
  returns_on lib np clf buf1 ->
  exists st',
    process_block lib np clf args st block now = Ok st' /\
    audio_buffer st' = buf1.
Proof.
  intros Hpush [feat [p [Hfeat Hp]]].
  unfold process_block. rewrite Hpush. cbn [bind].
  rewrite Hfeat. cbn [bind]. rewrite Hp. cbn [bind].
  destruct (PyFloat.ge p (threshold args)); eexists; split; reflexivity.
Qed.

Lemma fits_push (buf block : Np.ndarray) :
  RingBuffer.fits (List.length buf) block ->
  exists buf1,
    RingBuffer.push buf block = Ok buf1 /\
    List.length buf1 = List.length buf.
Proof.
  intros Hfit. unfold RingBuffer.fits in Hfit.
  assert (Hpush : RingBuffer.push buf block
                  = Ok (List.skipn (List.length block) buf ++ block))
    by (apply push_in_range; unfold Np.len in *; lia).
  eexists. split; [exact Hpush|].
  apply push_ok_inv in Hpush. apply Hpush.
Qed.

(** X10: with the queue of the program (no bound), a run goes on for as
    long as the blocks it takes fit and the collaborators return on the
    windows it meets: when each of the blocks the polls of the schedule
    take has between one sample and a buffer's worth, and the feature
    extraction and then the classifier return on the window after each
    of them, the loop is still going at the end of the schedule. *)
Theorem loop_goes_on_when_blocks_fit (args : Args) (events : list event) :
  forall s,
    PyQueue.maxsize (q_in s) = 0 ->
    Forall (RingBuffer.fits (List.length (audio_buffer (st s))))
      (List.firstn
         (taken_count (List.length (PyQueue.items (q_in s))) events)
         (PyQueue.items (q_in s) ++ callback_blocks events)) ->
    (forall k,
        (1 <= k <= taken_count (List.length (PyQueue.items (q_in s))) events)%nat ->
        returns_on lib np clf
          (window_after (audio_buffer (st s))
             (PyQueue.items (q_in s) ++ callback_blocks events) k)) ->
    exists s', run lib np clf args s events = Listening s'.
Proof.
  induction events as [|ev rest IH]; intros s Hm Hfit Hret.
  - exists s. reflexivity.
  - cbn [run]. destruct ev as [indata | now]; cbn [step].
    + rewrite callback_appends by exact Hm.
      apply IH; cbn [st q_in PyQueue.items PyQueue.maxsize].
      * reflexivity.
      * rewrite length_app, Nat.add_1_r, <- app_assoc. exact Hfit.
      * intros k Hk. rewrite length_app, Nat.add_1_r in Hk.
        rewrite <- app_assoc. apply Hret. exact Hk.
    + unfold PyQueue.get.
      destruct (PyQueue.items (q_in s)) as [|x q'] eqn:Hitems.
      * apply IH; [exact Hm | rewrite Hitems; exact Hfit |].
        rewrite Hitems. exact Hret.
      * cbn [List.length taken_count List.app List.firstn] in Hfit, Hret.
        apply Forall_cons_iff in Hfit. destruct Hfit as [Hx Hfit].
        destruct (fits_push _ _ Hx) as [buf1 [Hpush Hlen1]].
        assert (H1 : returns_on lib np clf buf1).
        { rewrite (window_after_first _ _ _ (q' ++ callback_blocks rest) Hpush).
          apply Hret. lia. }
        destruct (process_block_returns args (st s) x buf1 now Hpush H1)
          as [st1 [Hp Hbuf1]].
        rewrite Hp. cbn [bind].
        apply IH; cbn [st q_in PyQueue.items PyQueue.maxsize].
        -- exact Hm.
        -- rewrite Hbuf1, Hlen1. exact Hfit.
        -- intros k Hk. rewrite Hbuf1.
           rewrite (window_after_next _ _ _ _ k Hpush).
           apply Hret. lia.
Qed.

Lemma polls_drain (args : Args) (blocks : list Np.ndarray) :
  forall (nows : list nat) (st0 : State),
    List.length nows = List.length blocks ->
    Forall (RingBuffer.fits (List.length (audio_buffer st0))) blocks ->
    (forall k, (1 <= k <= List.length blocks)%nat ->
               returns_on lib np clf (window_after (audio_buffer st0) blocks k)) ->
    exists st',
      run lib np clf args
        {| q_in := {| PyQueue.maxsize := 0; PyQueue.items := blocks |};
           st := st0 |}
        (List.map Poll nows)
      = Listening {| q_in := {| PyQueue.maxsize := 0; PyQueue.items := [] |};
                     st := st' |} /\
      RingBuffer.push_all (audio_buffer st0) blocks = Ok (audio_buffer st').
Proof.
  induction blocks as [|b rest IH]; intros nows st0 Hn Hfit Hret.
  - destruct nows; [|discriminate]. exists st0. split; reflexivity.
  - destruct nows as [|now nows]; [discriminate|].
    apply Forall_cons_iff in Hfit. destruct Hfit as [Hb Hrest].
    destruct (fits_push _ _ Hb) as [buf1 [Hpush Hlen1]].
    assert (H1 : returns_on lib np clf buf1).
    { rewrite (window_after_first _ _ _ rest Hpush).
      apply Hret. cbn [List.length]. lia. }
    destruct (process_block_returns args st0 b buf1 now Hpush H1)
      as [st1 [Hp Hbuf1]].
    destruct (IH nows st1) as [st' [Hrun Hall]].
    + cbn [List.length] in Hn. lia.
    + rewrite Hbuf1, Hlen1. exact Hrest.
    + intros k Hk. rewrite Hbuf1.
      rewrite (window_after_next _ _ _ _ k Hpush).
      apply Hret. cbn [List.length]. lia.
    + exists st'. cbn [List.map run step]. unfold PyQueue.get.
      cbn [q_in PyQueue.items st PyQueue.maxsize].
      rewrite Hp. cbn [bind]. split; [exact Hrun|].
      cbn [RingBuffer.push_all]. rewrite Hpush. cbn [bind].
      rewrite <- Hbuf1. exact Hall.
Qed.

(** X11: blocks are consumed in the order they arrived.  When each of
    the blocks has between one sample and a buffer's worth, and the
    feature extraction and then the classifier return on the window
    after each of them, then after the callbacks have delivered [blocks]
    and the loop has polled once per block, the loop is still going, the
    queue is empty and the buffer is the window over the old contents
    followed by the blocks in arrival order. *)
Theorem blocks_consumed_in_arrival_order (args : Args) (st0 : State)
  (blocks : list Np.ndarray) (nows : list nat) :
  List.length nows = List.length blocks ->
  Forall (RingBuffer.fits (List.length (audio_buffer st0))) blocks ->
  (forall k, (1 <= k <= List.length blocks)%nat ->
             returns_on lib np clf (window_after (audio_buffer st0) blocks k)) ->
  exists s',
    run lib np clf args {| q_in := PyQueue.new 0; st := st0 |}
        (List.map Callback blocks ++ List.map Poll nows)
    = Listening s' /\
    PyQueue.items (q_in s') = [] /\
    audio_buffer (st s')
    = RingBuffer.lastn (List.length (audio_buffer st0))
        (audio_buffer st0 ++ List.concat blocks).
Proof.
  intros Hn Hfit Hret.
  rewrite run_app, run_callbacks. cbn [q_in st].
  rewrite callbacks_append by reflexivity. cbn [PyQueue.items PyQueue.new List.app].
  destruct (polls_drain args blocks nows st0 Hn Hfit Hret)
    as [st' [Hrun Hall]].
  eexists. split; [exact Hrun|]. cbn [q_in st PyQueue.items].
  split; [reflexivity|].
  apply push_all_ok_inv in Hall. apply Hall.
Qed.

End LoopProgress.

Section LoopComparisons.

Import Features Pipeline Schedule.

Variable lib : Librosa.
Variable np : Reductions.
Variable clf : Classifier.

Lemma same_labels_run (a1 a2 : Args) (events : list event) :
  threshold a1 = threshold a2 ->
  forall s1 s2,
    same_but_labels s1 s2 ->
    same_outcome same_but_labels
      (run lib np clf a1 s1 events) (run lib np clf a2 s2 events).
Proof.
  intros Ht. induction events as [|ev rest IH]; intros s1 s2 Hs.
  - exact Hs.
  - destruct Hs as [Hq [Hbuf Hdb]].
    cbn [run]. destruct ev as [indata | now]; cbn [step].
    + apply IH. cbn [q_in st]. rewrite Hq. repeat split; assumption.
    + rewrite Hq.
      destruct (PyQueue.get (q_in s2)) as [[block q']|].
      * unfold process_block. rewrite Hbuf, Ht.
        destruct (RingBuffer.push (audio_buffer (st s2)) block) as [buf|e];
          cbn [bind]; [|cbn; repeat split; assumption].
        destruct (extract_features lib np float64 (Mono buf) sr) as [feat|e];
          cbn [bind]; [|cbn; repeat split; assumption].
        destruct (predict_proba clf feat) as [p|e];
          cbn [bind]; [|cbn; repeat split; assumption].
        destruct (PyFloat.ge p (threshold a2)); cbn [bind]; apply IH;
          unfold same_but_labels; cbn [q_in st audio_buffer db];
          repeat split; auto.
        unfold log_event. rewrite !map_app, Hdb. reflexivity.
      * apply IH. repeat split; assumption.
Qed.

(** X12: the location label only tags the rows: two runs that differ in
    nothing but [--location] end alike, with the same queue, the same
    buffer and rows with the same timestamps and probabilities. *)
Theorem location_only_labels (args : Args) (loc1 loc2 : string) (s : Sys)
  (events : list event) :
  same_outcome same_but_labels
    (run lib np clf (with_location args loc1) s events)
    (run lib np clf (with_location args loc2) s events).
Proof.
  apply same_labels_run; [reflexivity|].
  repeat split; reflexivity.
Qed.

(** Everything but NaN is at or above minus infinity; nothing is at or
    above anything when it is NaN. *)
Lemma ge_minus_infinity (p t : float) :
  PyFloat.ge p t = true -> PyFloat.ge p (S754_infinity true) = true.
Proof.
  unfold PyFloat.ge, SFleb.
  destruct p as [sp|sp| |sp mp ep]; try reflexivity; try (destruct sp; reflexivity).
  destruct t as [st|st| |st mt et]; cbn; discriminate.
Qed.

Lemma filtered_run (args : Args) (t : float) (d : list EventRow)
  (events : list event) :
  forall s_t s_all,
    filtered_log t d s_t s_all ->
    same_outcome (filtered_log t d)
      (run lib np clf (with_threshold args t) s_t events)
      (run lib np clf (with_threshold args (S754_infinity true)) s_all events).
Proof.
  induction events as [|ev rest IH]; intros s_t s_all Hs.
  - exact Hs.
  - destruct Hs as [Hq [Hbuf [new [Hall Hfil]]]].
    cbn [run]. destruct ev as [indata | now]; cbn [step].
    + apply IH. cbn [q_in st]. rewrite Hq.
      split; [reflexivity|]. split; [exact Hbuf|]. exists new. auto.
    + rewrite Hq.
      destruct (PyQueue.get (q_in s_all)) as [[block q']|].
      * unfold process_block. rewrite Hbuf.
        cbn [threshold location with_threshold].
        destruct (RingBuffer.push (audio_buffer (st s_all)) block) as [buf|e];
          cbn [bind];
          [|cbn; split; [reflexivity|]; split; [exact Hq|];
            split; [exact Hbuf|]; exists new; auto].
        destruct (extract_features lib np float64 (Mono buf) sr) as [feat|e];
          cbn [bind];
          [|cbn; split; [reflexivity|]; split; [exact Hq|];
            split; [exact Hbuf|]; exists new; auto].
        destruct (predict_proba clf feat) as [p|e];
          cbn [bind];
          [|cbn; split; [reflexivity|]; split; [exact Hq|];
            split; [exact Hbuf|]; exists new; auto].
        destruct (PyFloat.ge p (S754_infinity true)) eqn:Hinf.
        -- destruct (PyFloat.ge p t) eqn:Hge; cbn [bind]; apply IH;
             unfold filtered_log; cbn [q_in st audio_buffer db];
             (split; [reflexivity|]); (split; [reflexivity|]);
             eexists; unfold log_event;
             (split; [rewrite Hall, <- app_assoc; reflexivity|]);
             rewrite Hfil, filter_app; cbn [List.filter];
             unfold above at 3; cbn [probability]; rewrite Hge.
           ++ rewrite <- app_assoc. reflexivity.
           ++ rewrite app_nil_r. reflexivity.
        -- destruct (PyFloat.ge p t) eqn:Hge.
           ++ apply ge_minus_infinity in Hge. congruence.
           ++ cbn [bind]. apply IH.
              unfold filtered_log. cbn [q_in st audio_buffer db].
              split; [reflexivity|]. split; [reflexivity|].
              exists new. auto.
      * apply IH. split; [exact Hq|]. split; [exact Hbuf|].
        exists new. auto.
Qed.

(** X13: the threshold only filters.  A run with threshold [t] ends as
    the run that logs every scored window does (threshold minus
    infinity), with the same queue and buffer, and its new rows are the
    new rows of that run whose probability is at or above [t]. *)
Theorem threshold_only_filters (args : Args) (t : float) (s : Sys)
  (events : list event) :
  same_outcome (filtered_log t (db (st s)))
    (run lib np clf (with_threshold args t) s events)
    (run lib np clf (with_threshold args (S754_infinity true)) s events).
Proof.
  apply filtered_run.
  split; [reflexivity|]. split; [reflexivity|].
  exists []. cbn. rewrite app_nil_r. split; reflexivity.
Qed.

End LoopComparisons.

Section LoopProgressExamples.

Import Features Pipeline Schedule.

Lemma loop_goes_on_when_blocks_fit_witness :
  exists s',
    run stub_librosa stub_reductions (constant_classifier PyFloat.f0_92)
        args_default sys_small [Poll 7; Callback [PyFloat.f2_0]; Poll 8]
    = Listening s'.
Proof.
  apply (loop_goes_on_when_blocks_fit stub_librosa stub_reductions
           (constant_classifier PyFloat.f0_92) args_default).
  - reflexivity.
  - repeat constructor; vm_compute; discriminate.
  - intros k _. eexists. eexists. split; reflexivity.
Defined.

Lemma blocks_consumed_in_arrival_order_witness :
  exists s',
    run stub_librosa stub_reductions (constant_classifier PyFloat.f0_92)
        args_default {| q_in := PyQueue.new 0; st := st_small |}
        (List.map Callback [[PyFloat.one]; [PyFloat.f2_0]]
         ++ List.map Poll [7%nat; 8%nat])
    = Listening s' /\
    PyQueue.items (q_in s') = [] /\
    audio_buffer (st s') = [PyFloat.one; PyFloat.f2_0].
Proof.
  destruct (blocks_consumed_in_arrival_order stub_librosa stub_reductions
              (constant_classifier PyFloat.f0_92)
              args_default st_small
              [[PyFloat.one]; [PyFloat.f2_0]] [7%nat; 8%nat])
    as [s' [Hrun [Hq Hbuf]]].
  - reflexivity.
  - repeat constructor; vm_compute; discriminate.
  - intros k _. eexists. eexists. split; reflexivity.
  - exists s'. split; [exact Hrun|]. split; [exact Hq|].
    rewrite Hbuf. reflexivity.
Defined.

End LoopProgressExamples.

(** ** Startup failures *)

Section StartupFailures.

Import Features Pipeline Schedule.

Lemma mul_int_sr (x : float) :
  PyFloat.mul_int x sr
  = Ok (PyFloat.mul x (S754_finite false 8796093022208000 (-39))).
Proof.
  unfold PyFloat.mul_int.
  replace (PyFloat.of_int sr)
    with (Ok (S754_finite false 8796093022208000 (-39)))
    by (vm_compute; reflexivity).
  reflexivity.
Qed.

(** X14: without the model file nothing else happens: whatever the
    arguments and the schedule, the program ends with
    [FileNotFoundError] before any size is computed or any block read. *)
Theorem missing_model_aborts (lib : Librosa) (np : Reductions)
  (clf : Classifier) (env : Env) (args : Args) (db0 : list EventRow)
  (events : list event) :
  model_exists env = false ->
  stream_and_detect lib np clf env args db0 events
  = Aborted FileNotFoundError.
Proof.
  intros H. unfold stream_and_detect, startup, load_model.
  rewrite H. reflexivity.
Qed.

Lemma missing_model_aborts_witness :
  stream_and_detect stub_librosa stub_reductions failing_classifier
    {| model_exists := false; joblib_load := Ok tt;
       input_stream := fun _ => Ok tt |}
    args_invalid [] [Callback [PyFloat.one]; Poll 7]
  = Aborted FileNotFoundError.
Proof.
  apply (missing_model_aborts stub_librosa stub_reductions failing_classifier
           {| model_exists := false; joblib_load := Ok tt;
              input_stream := fun _ => Ok tt |}).
  reflexivity.
Defined.

(** X15: once the model is loaded, a hop or a window that is NaN stops
    the startup with [ValueError], and one that is infinite with
    [OverflowError], at the conversion to a number of samples. *)
Theorem non_finite_duration_aborts (env : Env) (args : Args)
  (db0 : list EventRow) :
  load_model env = Ok tt ->
  (hop args = S754_nan -> startup env args db0 = Raise ValueError) /\
  (forall sgn, hop args = S754_infinity sgn ->
               startup env args db0 = Raise OverflowError) /\
  (forall h block_size,
      PyFloat.mul_int (hop args) sr = Ok h ->
      PyFloat.to_int h = Ok block_size ->
      (window args = S754_nan -> startup env args db0 = Raise ValueError) /\
      (forall sgn, window args = S754_infinity sgn ->
                   startup env args db0 = Raise OverflowError)).
Proof.
  intros Hl. unfold startup, RingBuffer.init. fold sr. rewrite Hl. cbn [bind].
  split; [|split].
  - intros ->. rewrite mul_int_sr. reflexivity.
  - intros sgn ->. rewrite mul_int_sr. destruct sgn; reflexivity.
  - intros h bs Hh Hbs. rewrite Hh. cbn [bind]. rewrite Hbs. cbn [bind].
    split.
    + intros ->. rewrite mul_int_sr. reflexivity.
    + intros sgn ->. rewrite mul_int_sr. destruct sgn; reflexivity.
Qed.

Lemma non_finite_duration_aborts_witness :
  startup good_env
    (parse_args "lab"%string None None (Some S754_nan)) []
  = Raise ValueError.
Proof.
  destruct (non_finite_duration_aborts good_env
              (parse_args "lab"%string None None (Some S754_nan)) [])
    as [H _].
  - reflexivity.
  - apply H. reflexivity.
Defined.

(** X16: once the model is loaded and the hop has been converted to a
    block size, a window whose number of samples comes out negative
    stops the startup with [ValueError] when the buffer is allocated,
    before the input stream is opened. *)
Theorem negative_window_aborts (env : Env) (args : Args)
  (db0 : list EventRow) (h w : float) (block_size n : Z) :
  load_model env = Ok tt ->
  PyFloat.mul_int (hop args) sr = Ok h ->
  PyFloat.to_int h = Ok block_size ->
  PyFloat.mul_int (window args) sr = Ok w ->
  PyFloat.to_int w = Ok n ->
  n < 0 ->
  startup env args db0 = Raise ValueError.
Proof.
  intros Hl Hh Hbs Hw Hn Hneg.
  unfold startup, RingBuffer.init, Np.zeros. fold sr.
  rewrite Hl. cbn [bind]. rewrite Hh. cbn [bind]. rewrite Hbs. cbn [bind].
  rewrite Hw. cbn [bind]. rewrite Hn. cbn [bind].
  destruct (n <? 0) eqn:E; [reflexivity | lia].
Qed.

Lemma negative_window_aborts_witness :
  startup good_env
    (parse_args "lab"%string None (Some f_minus_1) None) []
  = Raise ValueError.
Proof.
  apply (negative_window_aborts good_env
           (parse_args "lab"%string None (Some f_minus_1) None) []
           (S754_finite false 8796093022208000 (-39))
           (S754_finite true 8796093022208000 (-39))
           16000 (-16000)).
  - reflexivity.
  - vm_compute. reflexivity.
  - vm_compute. reflexivity.
  - vm_compute. reflexivity.
  - vm_compute. reflexivity.
  - lia.
Defined.

End StartupFailures.

(** ** The size of the feature vector *)

Section FeatureSize.

Import Features Schedule.

Lemma agg_length (np : Reductions) (m : matrix) :
  List.length (agg np m) = (2 * List.length m)%nat.
Proof. unfold agg. rewrite length_app, !length_map. lia. Qed.

(** X17: the feature vector has two entries (mean and standard
    deviation) for every row librosa returns, whatever the number of
    frames, so its length does not depend on the length of the audio. *)
Theorem feature_vector_length (lib : Librosa) (np : Reductions) (dt : dtype)
  (audio : audio_array) (sr : Z) (m1 m2 m3 m4 m5 m6 m7 m8 : matrix) :
  mfcc lib (sanitize np dt audio) sr 20 = Ok m1 ->
  delta lib m1 1 = Ok m2 ->
  delta lib m1 2 = Ok m3 ->
  spectral_centroid lib (sanitize np dt audio) sr = Ok m4 ->
  spectral_bandwidth lib (sanitize np dt audio) sr = Ok m5 ->
  spectral_contrast lib (sanitize np dt audio) sr = Ok m6 ->
  spectral_rolloff lib (sanitize np dt audio) sr = Ok m7 ->
  zero_crossing_rate lib (sanitize np dt audio) = Ok m8 ->
  exists v,
    extract_features lib np dt audio sr = Ok v /\
    List.length v
    = (2 * (List.length m1 + List.length m2 + List.length m3
            + List.length m4 + List.length m5 + List.length m6
            + List.length m7 + List.length m8))%nat.
Proof.
  intros H1 H2 H3 H4 H5 H6 H7 H8.
  unfold extract_features, compute_features.
  rewrite H1. cbn [bind]. rewrite H2. cbn [bind]. rewrite H3. cbn [bind].
  rewrite H4. cbn [bind]. rewrite H5. cbn [bind]. rewrite H6. cbn [bind].
  rewrite H7. cbn [bind]. rewrite H8. cbn [bind].
  eexists. split; [reflexivity|].
  cbn [List.concat]. rewrite !length_app, !agg_length. cbn [List.length]. lia.
Qed.

Lemma feature_vector_length_witness :
  exists v,
    extract_features shaped_librosa Pipeline.stub_reductions float64
      (Mono [PyFloat.one; S754_nan]) 16000 = Ok v /\
    List.length v = 142%nat.
Proof.
  destruct (feature_vector_length shaped_librosa Pipeline.stub_reductions
              float64 (Mono [PyFloat.one; S754_nan]) 16000
              (List.repeat [] 20) (List.repeat [] 20) (List.repeat [] 20)
              [[]] [[]] (List.repeat [] 7) [[]] [[]])
    as [v [Hv Hlen]]; try reflexivity.
  exists v. split; [exact Hv|]. rewrite Hlen. reflexivity.
Defined.

End FeatureSize.

(** ** More on framing *)

Section FramingMore.

Import Features.

(** The frames, written out. *)
Lemma frame_audio_explicit (audio : Np.ndarray) (sr : Z)
  (window_seconds hop_seconds w h : float) (win hop : Z) :
  PyFloat.mul_int window_seconds sr = Ok w ->
  PyFloat.to_int w = Ok win ->
  PyFloat.mul_int hop_seconds sr = Ok h ->
  PyFloat.to_int h = Ok hop ->
  0 < win ->
  0 < hop ->
  frame_audio audio sr window_seconds hop_seconds
  = Ok (if Np.len audio <? win then []
        else List.map
               (fun i : nat =>
                  (List.firstn (Z.to_nat win)
                     (List.skipn (Z.to_nat (Z.of_nat i * hop)) audio), sr))
               (List.seq 0 (Z.to_nat ((Np.len audio - win) / hop + 1)))).
Proof.
  intros Hw Hwin Hh Hhop Hwpos Hhpos.
  unfold frame_audio. rewrite Hw. cbn [bind]. rewrite Hwin. cbn [bind].
  rewrite Hh. cbn [bind]. rewrite Hhop. cbn [bind].
  rewrite py_range_forward by assumption. cbn [bind].
  pose proof (len_nonneg audio) as HL.
  set (L := Np.len audio) in *.
  rewrite Z.sub_0_r. f_equal.
  destruct (L <? win) eqn:Hshort.
  - apply Z.ltb_lt in Hshort.
    replace (Z.max 1 (L - win + 1)) with 1 by lia.
    replace ((1 + hop - 1) / hop) with 1
      by (replace (1 + hop - 1) with (1 * hop) by lia;
          rewrite Z.div_mul by lia; reflexivity).
    change (Z.to_nat 1) with 1%nat.
    cbn [List.seq List.map frame_loop].
    replace (0 + Z.of_nat 0 * hop + win) with win by lia.
    fold L. destruct (L <? win) eqn:E; [reflexivity | lia].
  - apply Z.ltb_ge in Hshort.
    replace (Z.max 1 (L - win + 1)) with (L - win + 1) by lia.
    replace (L - win + 1 + hop - 1) with (L - win + 1 * hop) by lia.
    rewrite Z.div_add by lia.
    set (count := (L - win) / hop + 1).
    assert (Hq : 0 <= (L - win) / hop) by (apply Z.div_pos; lia).
    assert (Hcount : ((L - win) / hop) * hop <= L - win)
      by (rewrite Z.mul_comm; apply Z.mul_div_le; lia).
    assert (Hstarts :
              Forall (fun s => s + win <= L)
                (List.map (fun i : nat => 0 + Z.of_nat i * hop)
                   (List.seq 0 (Z.to_nat count)))).
    { apply Forall_forall. intros s Hs.
      apply in_map_iff in Hs. destruct Hs as [i [<- Hi]].
      apply in_seq in Hi. unfold count in Hi. nia. }
    rewrite (frame_loop_no_break audio sr win _ Hstarts).
    rewrite map_map. apply map_ext_in. intros i Hi.
    apply in_seq in Hi. unfold count in Hi.
    destruct (slice_inside audio (0 + Z.of_nat i * hop)
                (0 + Z.of_nat i * hop + win)) as [Hs _];
      [nia | fold L; nia |].
    rewrite Hs.
    replace (0 + Z.of_nat i * hop + win - (0 + Z.of_nat i * hop)) with win
      by lia.
    replace (0 + Z.of_nat i * hop) with (Z.of_nat i * hop) by lia.
    reflexivity.
Qed.

(** X18: no frame is left out: an input of [L >= win] samples gives
    exactly [(L - win) // hop + 1] frames, a shorter one gives none. *)
Theorem frame_audio_count (audio : Np.ndarray) (sr : Z)
  (window_seconds hop_seconds w h : float) (win hop : Z) :
  PyFloat.mul_int window_seconds sr = Ok w ->
  PyFloat.to_int w = Ok win ->
  PyFloat.mul_int hop_seconds sr = Ok h ->
  PyFloat.to_int h = Ok hop ->
  0 < win ->
  0 < hop ->
  exists frames,
    frame_audio audio sr window_seconds hop_seconds = Ok frames /\
    Z.of_nat (List.length frames)
    = if Np.len audio <? win then 0 else (Np.len audio - win) / hop + 1.
Proof.
  intros Hw Hwin Hh Hhop Hwpos Hhpos.
  rewrite (frame_audio_explicit audio sr window_seconds hop_seconds w h win hop)
    by assumption.
  eexists. split; [reflexivity|].
  destruct (Np.len audio <? win) eqn:E; [reflexivity|].
  apply Z.ltb_ge in E.
  rewrite length_map, length_seq.
  assert (0 <= (Np.len audio - win) / hop) by (apply Z.div_pos; lia).
  lia.
Qed.

Lemma frame_audio_count_witness :
  exists frames,
    frame_audio
      [PyFloat.zero; PyFloat.one; PyFloat.f2_0; PyFloat.f3_0; PyFloat.f1_5]
      1 PyFloat.f3_0 PyFloat.f2_0 = Ok frames /\
    Z.of_nat (List.length frames) = 2.
Proof.
  destruct (frame_audio_count
              [PyFloat.zero; PyFloat.one; PyFloat.f2_0; PyFloat.f3_0; PyFloat.f1_5]
              1 PyFloat.f3_0 PyFloat.f2_0 PyFloat.f3_0 PyFloat.f2_0 3 2)
    as [frames [Hrun Hlen]]; try (vm_compute; reflexivity).
  exists frames. split; [exact Hrun|]. rewrite Hlen. reflexivity.
Defined.

(** X19: when the window converts to a number of samples, a hop that
    truncates to zero samples makes [frame_audio] raise [ValueError]
    (the step of [range] must not be zero), whatever the audio and
    whatever that number of samples. *)
Theorem frame_audio_zero_hop_raises (audio : Np.ndarray) (sr : Z)
  (window_seconds hop_seconds w h : float) (win : Z) :
  PyFloat.mul_int window_seconds sr = Ok w ->
  PyFloat.to_int w = Ok win ->
  PyFloat.mul_int hop_seconds sr = Ok h ->
  PyFloat.to_int h = Ok 0 ->
  frame_audio audio sr window_seconds hop_seconds = Raise ValueError.
Proof.
  intros Hw Hwin Hh Hhop.
  unfold frame_audio. rewrite Hw. cbn [bind]. rewrite Hwin. cbn [bind].
  rewrite Hh. cbn [bind]. rewrite Hhop. reflexivity.
Qed.

Lemma frame_audio_zero_hop_raises_witness :
  frame_audio [PyFloat.zero; PyFloat.one; PyFloat.f2_0] 1
    PyFloat.f2_0 PyFloat.f0_8 = Raise ValueError.
Proof.
  apply (frame_audio_zero_hop_raises [PyFloat.zero; PyFloat.one; PyFloat.f2_0] 1
           PyFloat.f2_0 PyFloat.f0_8 PyFloat.f2_0 PyFloat.f0_8 2);
    vm_compute; reflexivity.
Defined.

(** X20: when the window converts to a number of samples, a negative
    hop gives no frame at all, whatever the audio: the range is empty
    and the empty list is returned. *)
Theorem frame_audio_negative_hop_empty (audio : Np.ndarray) (sr : Z)
  (window_seconds hop_seconds w h : float) (win hop : Z) :
  PyFloat.mul_int window_seconds sr = Ok w ->
  PyFloat.to_int w = Ok win ->
  PyFloat.mul_int hop_seconds sr = Ok h ->
  PyFloat.to_int h = Ok hop ->
  hop < 0 ->
  frame_audio audio sr window_seconds hop_seconds = Ok [].
Proof.
  intros Hw Hwin Hh Hhop Hneg.
  unfold frame_audio. rewrite Hw. cbn [bind]. rewrite Hwin. cbn [bind].
  rewrite Hh. cbn [bind]. rewrite Hhop. cbn [bind].
  unfold py_range.
  destruct (hop =? 0) eqn:E0; [lia|].
  destruct (0 <? hop) eqn:E1; [lia|]. cbn [bind].
  set (stop := Z.max 1 (Np.len audio - win + 1)).
  assert (Hstop : 1 <= stop) by (unfold stop; lia).
  assert (Hc : (0 - stop - hop - 1) / - hop <= 0).
  { apply Z.lt_succ_r. apply Z.div_lt_upper_bound; lia. }
  replace (Z.to_nat ((0 - stop - hop - 1) / - hop)) with 0%nat by lia.
  reflexivity.
Qed.

Lemma frame_audio_negative_hop_empty_witness :
  frame_audio [PyFloat.zero; PyFloat.one; PyFloat.f2_0] 1
    PyFloat.f2_0 Schedule.f_minus_1 = Ok [].
Proof.
  apply (frame_audio_negative_hop_empty
           [PyFloat.zero; PyFloat.one; PyFloat.f2_0] 1
           PyFloat.f2_0 Schedule.f_minus_1 PyFloat.f2_0 Schedule.f_minus_1
           2 (-1));
    try (vm_compute; reflexivity).
Defined.





End FramingMore.

(** ** The training loop *)

Section TrainingLoop.

Import Features Training.

Variable lib : Librosa.
Variable np : Reductions.
Variable load : string -> result Np.ndarray.

(** The loop, with its accumulators, in one equation. *)
Lemma collect_spec (meta : list MetaRow) :
  forall X y,
    exists feats,
      collect lib np load meta X y
      = (X ++ feats,
         y ++ List.map label_of (List.filter (usable lib np load) meta)) /\
      List.map Ok feats
      = List.map (features_of lib np load)
          (List.filter (usable lib np load) meta).
Proof.
  induction meta as [|row rest IH]; intros X y.
  - exists []. cbn. rewrite !app_nil_r. split; reflexivity.
  - cbn [collect List.filter].
    assert (Hu : usable lib np load row = is_ok (features_of lib np load row))
      by reflexivity.
    rewrite Hu.
    destruct (features_of lib np load row) as [feat|e] eqn:Hf; cbn [is_ok].
    + destruct (IH (X ++ [feat]) (y ++ [label_of row])) as [feats [Hc Hm]].
      exists (feat :: feats). rewrite Hc, <- !app_assoc.
      split; [reflexivity|]. cbn [List.map]. rewrite Hf, Hm. reflexivity.
    + apply IH.
Qed.

(** X22: the features and the labels line up.  After the loop [X] holds
    the features of the rows whose file could be read and analysed, in
    the order of the metadata, and [y] holds, for the same rows in the
    same order, 1 when the category is "laughing" and 0 otherwise; so
    the two lists have the same length, at most the number of rows. *)
Theorem features_and_labels_line_up (meta : list MetaRow) :
  let ok := List.filter (usable lib np load) meta in
  let '(X, y) := collect lib np load meta [] [] in
  List.map Ok X = List.map (features_of lib np load) ok /\
  y = List.map label_of ok /\
  List.length X = List.length y /\
  (List.length y <= List.length meta)%nat.
Proof.
  intros ok. destruct (collect_spec meta [] []) as [feats [Hc Hm]].
  rewrite Hc. cbn [List.app]. fold ok in Hm |- *.
  split; [exact Hm|]. split; [reflexivity|].
  assert (Hlen : List.length feats = List.length ok).
  { apply (f_equal (@List.length _)) in Hm. rewrite !length_map in Hm.
    exact Hm. }
  rewrite length_map. split; [exact Hlen|].
  apply filter_length_le.
Qed.

(** X23: a file that cannot be read or analysed is passed over and the
    loop goes on: the result is the one for the metadata without that
    row. *)
Theorem failing_file_is_skipped (before after : list MetaRow) (row : MetaRow)
  (e : exn) :
  features_of lib np load row = Raise e ->
  collect lib np load (before ++ row :: after) [] []
  = collect lib np load (before ++ after) [] [].
Proof.
  intros Hf.
  destruct (collect_spec (before ++ row :: after) [] []) as [f1 [H1 M1]].
  destruct (collect_spec (before ++ after) [] []) as [f2 [H2 M2]].
  rewrite H1, H2. cbn [List.app].
  assert (Hfil : List.filter (usable lib np load) (before ++ row :: after)
                 = List.filter (usable lib np load) (before ++ after)).
  { rewrite !filter_app. cbn [List.filter].
    assert (Hu : usable lib np load row = false)
      by (unfold usable; rewrite Hf; reflexivity).
    rewrite Hu. reflexivity. }
  rewrite Hfil in *. f_equal.
  rewrite <- M2 in M1. clear - M1.
  revert f2 M1. induction f1 as [|x f1 IH]; intros [|z f2] M; try discriminate.
  - reflexivity.
  - cbn in M. injection M as -> M. f_equal. apply IH. exact M.
Qed.

(** X24: when no file can be used (an empty metadata file included) the
    training stops with [ValueError] at [np.vstack]. *)
Theorem nothing_usable_stops_training (meta : list MetaRow) :
  (forall row, In row meta -> usable lib np load row = false) ->
  prepare lib np load meta = Raise ValueError.
Proof.
  intros Hnone. unfold prepare.
  destruct (collect_spec meta [] []) as [feats [Hc Hm]].
  rewrite Hc. cbn [List.app].
  assert (Hfil : List.filter (usable lib np load) meta = []).
  { clear - Hnone. induction meta as [|row rest IH]; [reflexivity|].
    cbn [List.filter]. rewrite (Hnone row) by (left; reflexivity).
    apply IH. intros r Hr. apply Hnone. right. exact Hr. }
  rewrite Hfil in Hm. destruct feats; [reflexivity | discriminate].
Qed.

(** X25: when the training data is built, the matrix has one row per
    label, at least one row, and all its rows have the same length. *)
Theorem prepared_data_is_rectangular (meta : list MetaRow)
  (X_arr : matrix) (y : list Z) :
  prepare lib np load meta = Ok (X_arr, y) ->
  List.length X_arr = List.length y /\
  X_arr <> [] /\
  forall r1 r2, In r1 X_arr -> In r2 X_arr -> Np.len r1 = Np.len r2.
Proof.
  unfold prepare. intros H.
  destruct (collect_spec meta [] []) as [feats [Hc Hm]].
  rewrite Hc in H. cbn [List.app] in H.
  unfold vstack in H.
  destruct feats as [|x rest]; [discriminate|].
  destruct (List.forallb (fun r => Np.len r =? Np.len x) rest) eqn:Hall;
    cbn [bind] in H; [|discriminate].
  injection H as <- <-.
  split.
  - apply (f_equal (@List.length _)) in Hm.
    rewrite length_map in Hm. rewrite length_map in Hm.
    rewrite length_map. exact Hm.
  - split; [discriminate|].
    assert (Hx : forall r, In r (x :: rest) -> Np.len r = Np.len x).
    { intros r [<- | Hr]; [reflexivity|].
      rewrite forallb_forall in Hall. apply Z.eqb_eq. apply Hall. exact Hr. }
    intros r1 r2 H1 H2. rewrite (Hx r1 H1), (Hx r2 H2). reflexivity.
Qed.

End TrainingLoop.

Section TrainingExamples.

Import Features Training.

Lemma failing_file_is_skipped_witness :
  collect Pipeline.stub_librosa Pipeline.stub_reductions (load_all_but "b.wav")
    ([ {| filename := "a.wav"; category := "laughing" |} ]
     ++ {| filename := "b.wav"; category := "dog" |}
     :: [ {| filename := "c.wav"; category := "rain" |} ]) [] []
  = ([[]; []], [1; 0]).
Proof.
  rewrite (failing_file_is_skipped Pipeline.stub_librosa
             Pipeline.stub_reductions (load_all_but "b.wav")
             [ {| filename := "a.wav"; category := "laughing" |} ]
             [ {| filename := "c.wav"; category := "rain" |} ]
             {| filename := "b.wav"; category := "dog" |}
             FileNotFoundError).
  - vm_compute. reflexivity.
  - vm_compute. reflexivity.
Defined.

Lemma nothing_usable_stops_training_witness :
  prepare Pipeline.stub_librosa Pipeline.stub_reductions (load_all_but "b.wav")
    [ {| filename := "b.wav"; category := "dog" |} ]
  = Raise ValueError.
Proof.
  apply (nothing_usable_stops_training Pipeline.stub_librosa
           Pipeline.stub_reductions (load_all_but "b.wav")).
  intros row [<- | []]. vm_compute. reflexivity.
Defined.

Lemma prepared_data_is_rectangular_witness :
  prepare Pipeline.stub_librosa Pipeline.stub_reductions (load_all_but "b.wav")
    [ {| filename := "a.wav"; category := "laughing" |};
      {| filename := "b.wav"; category := "dog" |};
      {| filename := "c.wav"; category := "rain" |} ]
  = Ok ([[]; []], [1; 0]) /\
  List.length ([[]; []] : matrix) = List.length [1; 0].
Proof.
  assert (H : prepare Pipeline.stub_librosa Pipeline.stub_reductions
                (load_all_but "b.wav")
                [ {| filename := "a.wav"; category := "laughing" |};
                  {| filename := "b.wav"; category := "dog" |};
                  {| filename := "c.wav"; category := "rain" |} ]
              = Ok ([[]; []], [1; 0])) by (vm_compute; reflexivity).
  split; [exact H|].
  destruct (prepared_data_is_rectangular _ _ _ _ _ _ H) as [Hlen _].
  exact Hlen.
Defined.

End TrainingExamples.
